(** * DNS synchronisation and health-based failover: a shallow embedding

    The development follows [scripts/common.py] and [scripts/failover.py].

    - Python values that come out of YAML files and JSON bodies are the
      dynamically typed [value]s below: [None], booleans, integers, floats,
      text, lists and mappings with text keys (timestamps, binary data and
      other keys are left out); an operation applied to a value of the
      wrong shape raises the exception Python raises.
    - Text is a [string] holding its UTF-8 encoding: suffixes are compared
      on the bytes, lengths and subscripts count code points.  Case mapping
      and [repr] are Unicode tables and are parameters ([Builtins]).
    - HTTP traffic is explicit: a computation runs against a [World] that
      answers every request, and threads the list of requests issued so
      far.  Console output ([print]) and exception messages are left out:
      an exception is its class. *)

From Stdlib Require Import Bool Arith ZArith List String Ascii Lia.
From Stdlib Require Import Numbers.DecimalString SpecFloat.
Import ListNotations.
Local Open Scope list_scope.
Local Open Scope string_scope.

Set Implicit Arguments.
#[local] Set Warnings "-register-all".

(** ** Text operations of [str] *)

Module Str.

(** [s.endswith(suffix)] *)
Fixpoint endswith (s suffix : string) : bool :=
  if String.eqb s suffix then true
  else match s with
       | EmptyString => false
       | String _ s' => endswith s' suffix
       end.

Fixpoint mem (c : ascii) (chars : string) : bool :=
  match chars with
  | EmptyString => false
  | String d chars' => Ascii.eqb c d || mem c chars'
  end.

(** [s.rstrip(chars)]: drops the longest tail made of characters of
    [chars]. *)
Fixpoint rstrip (s chars : string) : string :=
  match s with
  | EmptyString => EmptyString
  | String c s' =>
      match rstrip s' chars with
      | EmptyString => if mem c chars then EmptyString else String c EmptyString
      | r => String c r
      end
  end.

(** [s[:-k]].  For [k = 0] Python reads the slice as [s[:0]]. *)
Definition slice_to_neg (s : string) (k : nat) : string :=
  match k with
  | O => EmptyString
  | _ => substring 0 (String.length s - k) s
  end.

(** A byte [10xxxxxx] continues the code point begun before it. *)
Definition is_continuation (c : ascii) : bool :=
  let n := nat_of_ascii c in (Nat.leb 128 n && Nat.leb n 191)%bool.

(** [len(s)]: the number of code points. *)
Fixpoint code_points (s : string) : nat :=
  match s with
  | EmptyString => 0
  | String c s' => if is_continuation c then code_points s' else S (code_points s')
  end.

(** The continuation bytes at the head of [s]. *)
Fixpoint continuation (s : string) : string :=
  match s with
  | EmptyString => EmptyString
  | String c s' => if is_continuation c then String c (continuation s') else EmptyString
  end.

(** [s[0]]: the first code point. *)
Definition first_code_point (s : string) : option string :=
  match s with
  | EmptyString => None
  | String c s' => Some (String c (continuation s'))
  end.

(** [s in (a, b, ...)] for a tuple of strings. *)
Fixpoint in_tuple (s : string) (l : list string) : bool :=
  match l with
  | [] => false
  | t :: l' => String.eqb s t || in_tuple s l'
  end.

End Str.

(** ** Python values and exceptions *)

Inductive value : Type :=
| VNone
| VBool (b : bool)
| VInt (z : Z)
| VFloat (f : spec_float)
| VStr (s : string)
| VList (l : list value)
| VDict (d : list (string * value)).

(** The exception classes of [httpx] that a request can raise.  The first
    twelve derive from [httpx.TransportError]; together with
    [DecodingError] and [TooManyRedirects] they are the subclasses of
    [httpx.RequestError].  [InvalidURL] is not one. *)
Inductive httpx_exc : Type :=
| ConnectTimeout | ReadTimeout | WriteTimeout | PoolTimeout
| ConnectError | ReadError | WriteError | CloseError
| LocalProtocolError | RemoteProtocolError
| ProxyError | UnsupportedProtocol
| DecodingError | TooManyRedirects
| InvalidURL.

Definition is_TimeoutException (e : httpx_exc) : bool :=
  match e with
  | ConnectTimeout | ReadTimeout | WriteTimeout | PoolTimeout => true
  | _ => false
  end.

Definition is_TransportError (e : httpx_exc) : bool :=
  match e with
  | DecodingError | TooManyRedirects | InvalidURL => false
  | _ => true
  end.

Definition is_RequestError (e : httpx_exc) : bool :=
  match e with
  | InvalidURL => false
  | _ => true
  end.

Inductive exn : Type :=
| ConfigError
| ProviderError
| KeyError
| IndexError
| TypeError
| AttributeError
| ValueError
| OverflowError
| Httpx (e : httpx_exc).

Inductive result (A : Type) : Type :=
| Ok (a : A)
| Raise (e : exn).
Arguments Ok {A} a.
Arguments Raise {A} e.

Definition is_ok {A} (r : result A) : bool :=
  match r with Ok _ => true | Raise _ => false end.

Definition rbind {A B} (r : result A) (k : A -> result B) : result B :=
  match r with
  | Ok a => k a
  | Raise e => Raise e
  end.

Declare Scope result_scope.
Delimit Scope result_scope with result.
Notation "x <- c ;; k" := (rbind c (fun x => k))
  (at level 61, c at next level, right associativity) : result_scope.

(** What Python does outside the fragment that is written out below: the
    [repr] of a float, of a list or of a dict, the reading of an integer
    literal from text, and [str.upper], the Unicode case mapping. *)
Class Builtins : Type := {
  repr_of : value -> string;
  int_of_text : string -> option Z;
  str_upper : string -> string
}.

Module Py.

(** [bool(v)] *)
Definition truthy (v : value) : bool :=
  match v with
  | VNone => false
  | VBool b => b
  | VInt z => negb (Z.eqb z 0)
  | VFloat f => match f with S754_zero _ => false | _ => true end
  | VStr s => negb (String.eqb s "")
  | VList l => match l with [] => false | _ => true end
  | VDict d => match d with [] => false | _ => true end
  end.

(** [a or b] *)
Definition or_else (a b : value) : value := if truthy a then a else b.

Fixpoint lookup (k : string) (d : list (string * value)) : option value :=
  match d with
  | [] => None
  | (k', v) :: d' => if String.eqb k k' then Some v else lookup k d'
  end.

(** [d.get(k, default)] on a dict. *)
Definition dict_get (d : list (string * value)) (k : string) (default : value) : value :=
  match lookup k d with
  | Some v => v
  | None => default
  end.

(** [v.get(k)] on any value: only a dict has the method. *)
Definition get (v : value) (k : string) : result value :=
  match v with
  | VDict d => Ok (dict_get d k VNone)
  | _ => Raise AttributeError
  end.

(** [v[k]] with a string key. *)
Definition getitem (v : value) (k : string) : result value :=
  match v with
  | VDict d => match lookup k d with Some x => Ok x | None => Raise KeyError end
  | _ => Raise TypeError
  end.

(** [v[0]] *)
Definition first (v : value) : result value :=
  match v with
  | VList l => match l with x :: _ => Ok x | [] => Raise IndexError end
  | VStr s =>
      match Str.first_code_point s with
      | Some c => Ok (VStr c)
      | None => Raise IndexError
      end
  | VDict _ => Raise KeyError
  | _ => Raise TypeError
  end.

(** [len(v)] *)
Definition len (v : value) : result nat :=
  match v with
  | VList l => Ok (List.length l)
  | VStr s => Ok (Str.code_points s)
  | VDict d => Ok (List.length d)
  | _ => Raise TypeError
  end.

(** [v == s] for a string [s]. *)
Definition eq_str (v : value) (s : string) : bool :=
  match v with
  | VStr t => String.eqb t s
  | _ => false
  end.

Definition str_of_Z (z : Z) : string := NilZero.string_of_int (Z.to_int z).

(** [int(f)] on a float: the integer part; infinities and NaN have none. *)
Definition int_of_float (f : spec_float) : result Z :=
  match f with
  | S754_zero _ => Ok 0%Z
  | S754_infinity _ => Raise OverflowError
  | S754_nan => Raise ValueError
  | S754_finite s m e =>
      let magnitude :=
        if (0 <=? e)%Z then (Z.pos m * 2 ^ e)%Z else (Z.pos m / 2 ^ (- e))%Z in
      Ok (if s then (- magnitude)%Z else magnitude)
  end.

Section WithBuiltins.
Context {B : Builtins}.

(** [str(v)], also what an f-string does with [{v}]. *)
Definition str (v : value) : string :=
  match v with
  | VNone => "None"
  | VBool true => "True"
  | VBool false => "False"
  | VInt z => str_of_Z z
  | VStr s => s
  | VFloat _ | VList _ | VDict _ => repr_of v
  end.

(** [int(v)] *)
Definition int (v : value) : result Z :=
  match v with
  | VInt z => Ok z
  | VBool b => Ok (if b then 1%Z else 0%Z)
  | VFloat f => int_of_float f
  | VStr s => match int_of_text s with Some z => Ok z | None => Raise ValueError end
  | _ => Raise TypeError
  end.
End WithBuiltins.

End Py.

(** ** [common.py]: records and name derivation *)

(** The fully qualified name, as the property [DnsRecordConfig.fqdn] and
    the function [fqdn] of [failover.py] both compute it. *)
Definition fqdn (domain name : value) : result string :=
  match name with
  | VStr n =>
      if Str.endswith n "." then Ok (Str.rstrip n ".")
      else if Py.eq_str domain n then Ok n
      else match domain with
           | VStr d =>
               if Str.endswith n ("." ++ d) then Ok n
               else Ok (n ++ "." ++ d)
           | _ => Raise TypeError
           end
  | _ => Raise AttributeError
  end.

Module DnsRecordConfig.

(** The dataclass does not enforce its annotations: [load_zone_config]
    stores [domain] and [name] as the YAML file has them. *)
Record t : Type := Build {
  domain : value;
  name : value;
  type : string;
  ttl : Z;
  values : list string
}.

Definition fqdn (r : t) : result string := fqdn (domain r) (name r).

Definition subname (r : t) : result string :=
  (f <- fqdn r ;;
   if Py.eq_str (domain r) f then Ok "@"
   else match domain r with
        | VStr d =>
            let suffix := "." ++ d in
            if Str.endswith f suffix
            then Ok (Str.slice_to_neg f (String.length suffix))
            else Raise ConfigError
        | _ => Raise TypeError
        end)%result.

End DnsRecordConfig.

(** The [values] of an entry as the loader reads them: [item.get("values") or []]. *)
Definition entry_values (d : list (string * value)) : value :=
  Py.or_else (Py.dict_get d "values" VNone) (VList []).

(** One entry of [records]: the body of the loop of [load_zone_config]. *)
Definition load_record {B : Builtins} (domain item : value) : result DnsRecordConfig.t :=
  match item with
  | VDict d =>
      let name := Py.dict_get d "name" VNone in
      let rtype := str_upper (Py.str (Py.dict_get d "type" (VStr ""))) in
      (ttl <- Py.int (Py.dict_get d "ttl" (VInt 300)) ;;
       let values := entry_values d in
       if negb (Py.truthy name) || negb (Py.truthy (VStr rtype)) || negb (Py.truthy values)
       then Raise ConfigError
       else
         n <- Py.len values ;;
         if negb (Nat.eqb n 1) then Raise ConfigError
         else
           v0 <- Py.first values ;;
           Ok (DnsRecordConfig.Build domain name rtype ttl [Py.str v0]))%result
  | _ => Raise ConfigError
  end.

(** The loop: records are appended in file order, the first entry that
    raises ends the load. *)
Fixpoint load_records {B : Builtins} (domain : value) (records_data : list value)
  : result (list DnsRecordConfig.t) :=
  match records_data with
  | [] => Ok []
  | item :: rest =>
      (r <- load_record domain item ;;
       rs <- load_records domain rest ;;
       Ok (r :: rs))%result
  end.

(** [load_zone_config], from the value [yaml.safe_load] returned. *)
Definition load_zone_config {B : Builtins} (data : value)
  : result (value * list DnsRecordConfig.t) :=
  match data with
  | VDict d =>
      let domain := Py.dict_get d "domain" VNone in
      if negb (Py.truthy domain) then Raise ConfigError
      else
        match Py.or_else (Py.dict_get d "records" VNone) (VList []) with
        | VList records_data =>
            (records <- load_records domain records_data ;;
             Ok (domain, records))%result
        | _ => Raise ConfigError
        end
  | _ => Raise ConfigError
  end.

Definition required_keys : list string :=
  ["domain"; "router_record"; "primary_target"; "secondary_target";
   "primary_check_url"; "secondary_check_url"; "expected_status"].

Fixpoint check_required (keys : list string) (d : list (string * value)) : result unit :=
  match keys with
  | [] => Ok tt
  | key :: keys' =>
      match Py.lookup key d with
      | None => Raise ConfigError
      | Some _ => check_required keys' d
      end
  end.

(** [d.setdefault(k, v)] *)
Definition setdefault (d : list (string * value)) (k : string) (v : value)
  : list (string * value) :=
  match Py.lookup k d with
  | Some _ => d
  | None => (d ++ [(k, v)])%list
  end.

(** [load_failover_config], from the value [yaml.safe_load] returned. *)
Definition load_failover_config (data : value) : result (list (string * value)) :=
  match data with
  | VDict d =>
      (_ <- check_required required_keys d ;;
       Ok (setdefault d "timeout_seconds" (VInt 5)))%result
  | _ => Raise ConfigError
  end.

(** ** The outside world: environment variables and HTTP *)

Inductive method : Type := GET | PUT | POST.

Record Request : Type := {
  meth : method;
  host : string;
  authorization : option string;
  url : value;
  params : list (string * value);
  payload : option value;
  timeout : Z
}.

Record Response : Type := {
  status_code : Z;
  text : string;
  body : option value          (* [None]: the text is not JSON *)
}.

Inductive outcome : Type :=
| Completed (resp : Response)
| Fails (e : exn).

(** The answer to a request may depend on every request made before it. *)
Record World : Type := {
  environ : string -> option string;
  http : list Request -> Request -> outcome
}.

(** A computation reads the world, extends the list of requests made so
    far and returns or raises. *)
Definition M (A : Type) : Type := list Request -> result A * list Request.

Definition ret {A} (a : A) : M A := fun h => (Ok a, h).

Definition raise {A} (e : exn) : M A := fun h => (Raise e, h).

Definition bind {A B} (m : M A) (k : A -> M B) : M B :=
  fun h =>
    match m h with
    | (Ok a, h') => k a h'
    | (Raise e, h') => (Raise e, h')
    end.

Definition lift {A} (r : result A) : M A := fun h => (r, h).

(** [try: m except <classes accepted by handles>: handler] *)
Definition try_except {A} (m : M A) (handles : exn -> bool) (handler : M A) : M A :=
  fun h =>
    match m h with
    | (Ok a, h') => (Ok a, h')
    | (Raise e, h') => if handles e then handler h' else (Raise e, h')
    end.

Definition send (w : World) (r : Request) : M Response :=
  fun h =>
    match http w h r with
    | Completed resp => (Ok resp, (h ++ [r])%list)
    | Fails e => (Raise e, (h ++ [r])%list)
    end.

Definition is_write (r : Request) : bool :=
  match meth r with
  | GET => false
  | PUT | POST => true
  end.

(** Whatever the computation adds to the requests made so far satisfies [P]. *)
Definition adds {A} (P : Request -> Prop) (m : M A) : Prop :=
  forall h, exists new, snd (m h) = (h ++ new)%list /\ Forall P new.

(** A computation that only reads: it adds no [PUT] and no [POST]. *)
Definition reads_only {A} (m : M A) : Prop := adds (fun q => is_write q = false) m.

Declare Scope io_scope.
Delimit Scope io_scope with io.
Notation "x <- c ;; k" := (bind c (fun x => k))
  (at level 61, c at next level, right associativity) : io_scope.
Notation "c ;; k" := (bind c (fun _ => k))
  (at level 61, right associativity) : io_scope.

(** [resp.json()] *)
Definition json (resp : Response) : result value :=
  match body resp with
  | Some v => Ok v
  | None => Raise ValueError
  end.

(** [status not in (200, 201)] *)
Definition not_200_201 (status : Z) : bool :=
  negb (Z.eqb status 200 || Z.eqb status 201).

(** [get_env_or_raise] *)
Definition get_env_or_raise (w : World) (key : string) : result string :=
  match environ w key with
  | Some val => if String.eqb val "" then Raise ConfigError else Ok val
  | None => Raise ConfigError
  end.

(** ** [common.py]: the two provider clients *)

Module CloudflareClient.

Record t : Type := Build { api_token : string; base_url : string }.

Definition default_base_url : string := "https://api.cloudflare.com/client/v4".

Definition init (api_token : string) : t :=
  Build api_token (Str.rstrip default_base_url "/").

Definition request (cf : t) (m : method) (path : string)
  (params : list (string * value)) (payload : option value) : Request :=
  {| meth := m;
     host := base_url cf;
     authorization := Some ("Bearer " ++ api_token cf);
     url := VStr path;
     params := params;
     payload := payload;
     timeout := 10 |}.

Section Calls.
Context {B : Builtins} (w : World).

Definition get_zone_id (cf : t) (zone_name : value) : M value :=
  (resp <- send w (request cf GET "/zones" [("name", zone_name)] None) ;;
   if negb (Z.eqb (status_code resp) 200) then raise ProviderError
   else
     result <- lift (json resp) ;;
     r <- lift (Py.get result "result") ;;
     let zones := Py.or_else r (VList []) in
     if negb (Py.truthy zones) then raise ProviderError
     else
       z <- lift (Py.first zones) ;;
       lift (Py.getitem z "id"))%io.

(** Returns [VNone] for Python's [None]. *)
Definition get_dns_record (cf : t) (zone_id : value) (name rtype : string) : M value :=
  (resp <- send w (request cf GET ("/zones/" ++ Py.str zone_id ++ "/dns_records")
                     [("type", VStr rtype); ("name", VStr name)] None) ;;
   if negb (Z.eqb (status_code resp) 200) then raise ProviderError
   else
     result <- lift (json resp) ;;
     r <- lift (Py.get result "result") ;;
     let records := Py.or_else r (VList []) in
     if negb (Py.truthy records) then ret VNone
     else lift (Py.first records))%io.

Definition record_payload (name rtype content : string) (ttl : Z) (proxied : option bool)
  : value :=
  let fields :=
    [("type", VStr rtype); ("name", VStr name); ("content", VStr content); ("ttl", VInt ttl)] in
  match proxied with
  | Some p =>
      if Str.in_tuple rtype ["A"; "AAAA"; "CNAME"]
      then VDict (fields ++ [("proxied", VBool p)])%list
      else VDict fields
  | None => VDict fields
  end.

Definition upsert_dns_record (cf : t) (zone_id : value) (name rtype content : string)
  (ttl : Z) (proxied : option bool) : M unit :=
  (existing <- get_dns_record cf zone_id name rtype ;;
   let payload := record_payload name rtype content ttl proxied in
   if Py.truthy existing then
     record_id <- lift (Py.getitem existing "id") ;;
     resp <- send w (request cf PUT
                       ("/zones/" ++ Py.str zone_id ++ "/dns_records/" ++ Py.str record_id)
                       [] (Some payload)) ;;
     if not_200_201 (status_code resp) then raise ProviderError else ret tt
   else
     resp <- send w (request cf POST ("/zones/" ++ Py.str zone_id ++ "/dns_records")
                       [] (Some payload)) ;;
     if not_200_201 (status_code resp) then raise ProviderError else ret tt)%io.

(** The write that ends [upsert_dns_record]: an update of the record found,
    a create when none was found. *)
Definition write_request (cf : t) (zone_id existing : value)
  (name rtype content : string) (ttl : Z) (proxied : option bool) : result Request :=
  if Py.truthy existing then
    (record_id <- Py.getitem existing "id" ;;
     Ok (request cf PUT
           ("/zones/" ++ Py.str zone_id ++ "/dns_records/" ++ Py.str record_id) []
           (Some (record_payload name rtype content ttl proxied))))%result
  else
    Ok (request cf POST ("/zones/" ++ Py.str zone_id ++ "/dns_records") []
          (Some (record_payload name rtype content ttl proxied))).

(** The request [get_dns_record] sends. *)
Definition lookup_request (cf : t) (zone_id : value) (name rtype : string) : Request :=
  request cf GET ("/zones/" ++ Py.str zone_id ++ "/dns_records")
    [("type", VStr rtype); ("name", VStr name)] None.

End Calls.
End CloudflareClient.

Module DeSecClient.

Record t : Type := Build { api_token : string; base_url : string }.

Definition default_base_url : string := "https://desec.io/api/v1".

Definition init (api_token : string) : t :=
  Build api_token (Str.rstrip default_base_url "/").

Definition request (c : t) (m : method) (path : string) (payload : option value) : Request :=
  {| meth := m;
     host := base_url c;
     authorization := Some ("Token " ++ api_token c);
     url := VStr path;
     params := [];
     payload := payload;
     timeout := 10 |}.

Section Calls.
Context {B : Builtins} (w : World).

Definition rrset_payload (subname rtype : string) (ttl : Z) (records : list string) : value :=
  VDict [("subname", VStr subname); ("type", VStr rtype); ("ttl", VInt ttl);
         ("records", VList (map VStr records))].

Definition upsert_rrset (c : t) (domain : value) (subname rtype : string) (ttl : Z)
  (records : list string) : M unit :=
  (let path := "/domains/" ++ Py.str domain ++ "/rrsets/" ++ subname ++ "/" ++ rtype ++ "/" in
   resp <- send w (request c PUT path (Some (rrset_payload subname rtype ttl records))) ;;
   if not_200_201 (status_code resp) then raise ProviderError else ret tt)%io.

End Calls.
End DeSecClient.

(** ** [failover.py] *)

Module Failover.
Section Run.
Context {B : Builtins} (w : World).

Definition health_request (url : value) (timeout_seconds : Z) : Request :=
  {| meth := GET;
     host := "";
     authorization := None;
     url := url;
     params := [];
     payload := None;
     timeout := timeout_seconds |}.

Definition catches_RequestError (e : exn) : bool :=
  match e with
  | Httpx x => is_RequestError x
  | _ => false
  end.

Definition check_health (url : value) (expected_status timeout_seconds : Z) : M bool :=
  try_except
    (resp <- send w (health_request url timeout_seconds) ;;
     ret (Z.eqb (status_code resp) expected_status))%io
    catches_RequestError
    (ret false).

Definition current_target_info (cf : CloudflareClient.t) (zone_id : value)
  (router_fqdn : string) : M value :=
  (rec <- CloudflareClient.get_dns_record w cf zone_id router_fqdn "CNAME" ;;
   if negb (Py.truthy rec) then ret VNone
   else lift (Py.get rec "content"))%io.

Definition with_trailing_dot (s : string) : string :=
  if negb (Str.endswith s ".") then s ++ "." else s.

Definition set_router_target (cf : CloudflareClient.t) (desec : DeSecClient.t)
  (zone_name zone_id : value) (router_name : value) (router_fqdn new_target_fqdn : string)
  (ttl : Z) : M unit :=
  (CloudflareClient.upsert_dns_record w cf zone_id router_fqdn "CNAME" new_target_fqdn ttl None ;;
   let rec_cfg :=
     DnsRecordConfig.Build zone_name (VStr router_fqdn) "CNAME" ttl
       [with_trailing_dot new_target_fqdn] in
   subname <- lift (DnsRecordConfig.subname rec_cfg) ;;
   DeSecClient.upsert_rrset w desec zone_name subname "CNAME" ttl
     (DnsRecordConfig.values rec_cfg))%io.

(** The local variables of [run_failover] that the rest of the run uses. *)
Record Locals : Type := {
  domain : value;
  router_record : value;
  primary_check_url : value;
  secondary_check_url : value;
  expected_status : Z;
  timeout_seconds : Z;
  router_fqdn : string;
  primary_fqdn : string;
  secondary_fqdn : string;
  cf : CloudflareClient.t;
  desec : DeSecClient.t
}.

(** Lines 103 to 123 of [run_failover]: the configuration, the three
    names, the two tokens and the two clients.  No request is made. *)
Definition prepare (data : value) : result Locals :=
  (cfg <- load_failover_config data ;;
   domain <- Py.getitem (VDict cfg) "domain" ;;
   router_record <- Py.getitem (VDict cfg) "router_record" ;;
   primary_target <- Py.getitem (VDict cfg) "primary_target" ;;
   secondary_target <- Py.getitem (VDict cfg) "secondary_target" ;;
   primary_check_url <- Py.getitem (VDict cfg) "primary_check_url" ;;
   secondary_check_url <- Py.getitem (VDict cfg) "secondary_check_url" ;;
   es <- Py.getitem (VDict cfg) "expected_status" ;;
   expected_status <- Py.int es ;;
   timeout_seconds <- Py.int (Py.dict_get cfg "timeout_seconds" (VInt 5)) ;;
   router_fqdn <- fqdn domain router_record ;;
   primary_fqdn <- fqdn domain primary_target ;;
   secondary_fqdn <- fqdn domain secondary_target ;;
   cf_token <- get_env_or_raise w "CF_API_TOKEN" ;;
   desec_token <- get_env_or_raise w "DESEC_API_TOKEN" ;;
   Ok {| domain := domain;
         router_record := router_record;
         primary_check_url := primary_check_url;
         secondary_check_url := secondary_check_url;
         expected_status := expected_status;
         timeout_seconds := timeout_seconds;
         router_fqdn := router_fqdn;
         primary_fqdn := primary_fqdn;
         secondary_fqdn := secondary_fqdn;
         cf := CloudflareClient.init cf_token;
         desec := DeSecClient.init desec_token |})%result.

(** Lines 132 to 144: the desired target, or [None] when the routine
    gives up because both checks failed. *)
Definition desired_target (l : Locals) : M (option string) :=
  (primary_ok <- check_health (primary_check_url l) (expected_status l) (timeout_seconds l) ;;
   if primary_ok then ret (Some (primary_fqdn l))
   else
     secondary_ok <-
       check_health (secondary_check_url l) (expected_status l) (timeout_seconds l) ;;
     if secondary_ok then ret (Some (secondary_fqdn l))
     else ret None)%io.

(** Lines 146 to 163: compare with the current target and write on a
    difference. *)
Definition apply_target (l : Locals) (zone_id : value) (target : string) : M unit :=
  (current <- current_target_info (cf l) zone_id (router_fqdn l) ;;
   if Py.eq_str current target then ret tt
   else
     set_router_target (cf l) (desec l) (domain l) zone_id (router_record l)
       (router_fqdn l) target 60)%io.

(** [run_failover], from the value [yaml.safe_load] returned for the
    configuration file. *)
Definition run_failover (data : value) : M unit :=
  (l <- lift (prepare data) ;;
   zone_id <- CloudflareClient.get_zone_id w (cf l) (domain l) ;;
   desired <- desired_target l ;;
   match desired with
   | None => ret tt
   | Some target => apply_target l zone_id target
   end)%io.

(** [except (ConfigError, ProviderError)] *)
Definition catches_known_errors (e : exn) : bool :=
  match e with
  | ConfigError | ProviderError => true
  | _ => false
  end.

(** [main], once the arguments are parsed and the file is read: the exit
    code. *)
Definition main (data : value) : M Z :=
  try_except (run_failover data ;; ret 0%Z)%io catches_known_errors (ret 1%Z).

End Run.
End Failover.

(** ** [sync_dns.py] *)

Module SyncDns.
Section Run.
Context {B : Builtins} (w : World).

(** [values[0]] on the list of values of a record. *)
Definition first_value (values : list string) : result string :=
  match values with
  | v :: _ => Ok v
  | [] => Raise IndexError
  end.

(** The body of the loop of [sync_zone], lines 39 to 63. *)
Definition sync_record (cf : CloudflareClient.t) (desec : DeSecClient.t) (zone_id : value)
  (rec : DnsRecordConfig.t) : M unit :=
  (fqdn <- lift (DnsRecordConfig.fqdn rec) ;;
   value <- lift (first_value (DnsRecordConfig.values rec)) ;;
   CloudflareClient.upsert_dns_record w cf zone_id fqdn (DnsRecordConfig.type rec) value
     (DnsRecordConfig.ttl rec) None ;;
   subname <- lift (DnsRecordConfig.subname rec) ;;
   DeSecClient.upsert_rrset w desec (DnsRecordConfig.domain rec) subname
     (DnsRecordConfig.type rec) (DnsRecordConfig.ttl rec) (DnsRecordConfig.values rec))%io.

(** The loop over the records, in the order of the file. *)
Fixpoint sync_records (cf : CloudflareClient.t) (desec : DeSecClient.t) (zone_id : value)
  (records : list DnsRecordConfig.t) : M unit :=
  match records with
  | [] => ret tt
  | rec :: rest =>
      (sync_record cf desec zone_id rec ;;
       sync_records cf desec zone_id rest)%io
  end.

(** [sync_zone], from the value [yaml.safe_load] returned for the
    configuration file. *)
Definition sync_zone (data : value) : M unit :=
  (loaded <- lift (load_zone_config data) ;;
   let domain := fst loaded in
   let records := snd loaded in
   cf_token <- lift (get_env_or_raise w "CF_API_TOKEN") ;;
   desec_token <- lift (get_env_or_raise w "DESEC_API_TOKEN") ;;
   let cf := CloudflareClient.init cf_token in
   let desec := DeSecClient.init desec_token in
   zone_id <- CloudflareClient.get_zone_id w cf domain ;;
   sync_records cf desec zone_id records)%io.

(** [main], once the arguments are parsed and the file is read: the exit
    code. *)
Definition main (data : value) : M Z :=
  try_except (sync_zone data ;; ret 0%Z)%io Failover.catches_known_errors (ret 1%Z).

End Run.
End SyncDns.

(** ** A sample world *)

Module Sample.

Fixpoint digits (s : string) (acc : Z) : option Z :=
  match s with
  | EmptyString => Some acc
  | String c s' =>
      let n := nat_of_ascii c in
      if (Nat.leb 48 n && Nat.leb n 57)%bool
      then digits s' (10 * acc + Z.of_nat (n - 48))%Z
      else None
  end.

Definition ascii_upper_char (c : ascii) : ascii :=
  let n := nat_of_ascii c in
  if (Nat.leb 97 n && Nat.leb n 122)%bool then ascii_of_nat (n - 32) else c.

Fixpoint ascii_upper (s : string) : string :=
  match s with
  | EmptyString => EmptyString
  | String c s' => String (ascii_upper_char c) (ascii_upper s')
  end.

(** Unsigned decimal literals are read, ASCII letters are upper-cased,
    floats and containers print as an ellipsis. *)
#[export] Instance builtins : Builtins := {|
  repr_of := fun _ => "...";
  int_of_text := fun s => match s with EmptyString => None | _ => digits s 0%Z end;
  str_upper := ascii_upper
|}.

Definition config : value :=
  VDict [("domain", VStr "example.com");
         ("router_record", VStr "www");
         ("primary_target", VStr "primary");
         ("secondary_target", VStr "failover");
         ("primary_check_url", VStr "https://primary.example.com/health");
         ("secondary_check_url", VStr "https://failover.example.com/health");
         ("expected_status", VInt 200)].

Definition reply (status : Z) (v : value) : outcome :=
  Completed {| status_code := status; text := ""; body := Some v |}.

(** Cloudflare knows the zone and holds the router record with the given
    content; both providers accept writes with [write_status]; the two
    health URLs answer with the given statuses. *)
Definition world (primary secondary : Z) (content : string) (write_status : Z) : World :=
  {| environ := fun key =>
       if String.eqb key "CF_API_TOKEN" then Some "cf-token"
       else if String.eqb key "DESEC_API_TOKEN" then Some "desec-token"
       else None;
     http := fun _ r =>
       match meth r with
       | GET =>
           if Py.eq_str (url r) "https://primary.example.com/health"
           then reply primary VNone
           else if Py.eq_str (url r) "https://failover.example.com/health"
           then reply secondary VNone
           else if Py.eq_str (url r) "/zones"
           then reply 200 (VDict [("result", VList [VDict [("id", VStr "z1")]])])
           else reply 200 (VDict [("result",
                  VList [VDict [("id", VStr "r1"); ("content", VStr content)]])])
       | _ => reply write_status (VDict [])
       end |}.

Definition cf : CloudflareClient.t := CloudflareClient.init "cf-token".
Definition desec : DeSecClient.t := DeSecClient.init "desec-token".

(** What [run_failover] holds in its local variables for [config]. *)
Definition locals : Failover.Locals :=
  {| Failover.domain := VStr "example.com";
     Failover.router_record := VStr "www";
     Failover.primary_check_url := VStr "https://primary.example.com/health";
     Failover.secondary_check_url := VStr "https://failover.example.com/health";
     Failover.expected_status := 200;
     Failover.timeout_seconds := 5;
     Failover.router_fqdn := "www.example.com";
     Failover.primary_fqdn := "primary.example.com";
     Failover.secondary_fqdn := "failover.example.com";
     Failover.cf := cf;
     Failover.desec := desec |}.

(** The requests of a run on [config]. *)
Definition zones_request : Request :=
  CloudflareClient.request cf GET "/zones" [("name", VStr "example.com")] None.

Definition primary_check : Request :=
  Failover.health_request (VStr "https://primary.example.com/health") 5.

Definition secondary_check : Request :=
  Failover.health_request (VStr "https://failover.example.com/health") 5.

Definition records_request {B : Builtins} (zone_id : value) : Request :=
  CloudflareClient.request cf GET ("/zones/" ++ Py.str zone_id ++ "/dns_records")
    [("type", VStr "CNAME"); ("name", VStr "www.example.com")] None.

Definition update_request {B : Builtins} (zone_id record_id : value) (content : string)
  : Request :=
  CloudflareClient.request cf PUT
    ("/zones/" ++ Py.str zone_id ++ "/dns_records/" ++ Py.str record_id) []
    (Some (VDict [("type", VStr "CNAME"); ("name", VStr "www.example.com");
                  ("content", VStr content); ("ttl", VInt 60)])).


(** Cloudflare lists two zones for the name. *)
Definition two_zones : World :=
  {| environ := fun _ => None;
     http := fun _ _ =>
       reply 200 (VDict [("result", VList [VDict [("id", VStr "z1")];
                                           VDict [("id", VStr "z2")]])]) |}.

(** Cloudflare knows the zone and has no record in it; the primary front
    is healthy and writes are accepted. *)
Definition fresh : World :=
  {| environ := fun key =>
       if String.eqb key "CF_API_TOKEN" then Some "cf-token"
       else if String.eqb key "DESEC_API_TOKEN" then Some "desec-token"
       else None;
     http := fun _ r =>
       match meth r with
       | GET =>
           if Py.eq_str (url r) "https://primary.example.com/health"
           then reply 200 VNone
           else if Py.eq_str (url r) "/zones"
           then reply 200 (VDict [("result", VList [VDict [("id", VStr "z1")]])])
           else reply 200 (VDict [("result", VList [])])
       | _ => reply 200 (VDict [])
       end |}.

(** The primary front is down, the secondary is up, the router points to
    the primary and writes are accepted. *)
Definition normal : World := world 503 200 "primary.example.com" 200.

(** Both tokens are set and no request gets through. *)
Definition unreachable : World :=
  {| environ := fun key =>
       if String.eqb key "CF_API_TOKEN" then Some "cf-token"
       else if String.eqb key "DESEC_API_TOKEN" then Some "desec-token"
       else None;
     http := fun _ _ => Fails (Httpx ConnectTimeout) |}.

(** A record with an absolute name outside the zone. *)
Definition outside : DnsRecordConfig.t :=
  DnsRecordConfig.Build (VStr "example.com") (VStr "other.org.") "A" 300 ["192.0.2.1"].

Definition zone : value :=
  VDict [("domain", VStr "example.com");
         ("records",
          VList [VDict [("name", VStr "www"); ("type", VStr "cname"); ("ttl", VInt 120);
                        ("values", VList [VStr "router.example.com."])];
                 VDict [("name", VStr "example.com."); ("type", VStr "A");
                        ("values", VList [VStr "192.0.2.1"])]])].

Definition zone_records : list DnsRecordConfig.t :=
  [DnsRecordConfig.Build (VStr "example.com") (VStr "www") "CNAME" 120 ["router.example.com."];
   DnsRecordConfig.Build (VStr "example.com") (VStr "example.com.") "A" 300 ["192.0.2.1"]].

End Sample.

(** * Properties *)

Unset Implicit Arguments.

(** ** Text *)

Section StrFacts.
Import Str.

Lemma length_app (s t : string) :
  String.length (s ++ t) = String.length s + String.length t.
Proof. induction s as [|c s IH]; simpl; [reflexivity | now rewrite IH]. Qed.

Lemma app_empty_r (s : string) : s ++ "" = s.
Proof. induction s as [|c s IH]; simpl; [reflexivity | now rewrite IH]. Qed.

Lemma endswith_cons (c : ascii) (s suffix : string) :
  endswith (String c s) suffix =
  if String.eqb (String c s) suffix then true else endswith s suffix.
Proof. reflexivity. Qed.

Lemma endswith_refl (s : string) : endswith s s = true.
Proof.
  destruct s; [reflexivity|]. now rewrite endswith_cons, String.eqb_refl.
Qed.

Lemma endswith_app (p s : string) : endswith (p ++ s) s = true.
Proof.
  induction p as [|c p IH]; cbn [append].
  - apply endswith_refl.
  - rewrite endswith_cons, IH. now destruct (String.eqb _ _).
Qed.

Lemma endswith_spec (s suffix : string) :
  endswith s suffix = true <-> exists p, s = p ++ suffix.
Proof.
  split.
  - induction s as [|c s IH].
    + cbn [endswith]. destruct (String.eqb_spec "" suffix) as [<-|]; [now exists "" | discriminate].
    + rewrite endswith_cons.
      destruct (String.eqb_spec (String c s) suffix) as [<-|_].
      * now exists "".
      * intros H. destruct (IH H) as [p ->]. now exists (String c p).
  - intros [p ->]. apply endswith_app.
Qed.

Lemma endswith_length (s suffix : string) :
  endswith s suffix = true -> String.length suffix <= String.length s.
Proof.
  intros H. apply endswith_spec in H. destruct H as [p ->].
  rewrite length_app. lia.
Qed.

(** The test [s.endswith(".")] looks at the last character only. *)
Lemma endswith_dot_cons (c : ascii) (s : string) :
  endswith (String c s) "." =
  match s with
  | EmptyString => Ascii.eqb c "."
  | _ => endswith s "."
  end.
Proof.
  rewrite endswith_cons. destruct s as [|c' s].
  - cbn. destruct (Ascii.eqb c "."); reflexivity.
  - replace (String.eqb (String c (String c' s)) ".") with false; [reflexivity|].
    symmetry. apply String.eqb_neq. congruence.
Qed.

Lemma endswith_dot_app (p s : string) :
  s <> "" -> endswith (p ++ s) "." = endswith s ".".
Proof.
  intros Hs. induction p as [|c p IH]; [reflexivity|].
  cbn [append]. rewrite endswith_dot_cons.
  destruct (p ++ s) eqn:E; [|exact IH].
  destruct p; [now subst | discriminate].
Qed.

Lemma rstrip_no_trailing_dot (s : string) : endswith (rstrip s ".") "." = false.
Proof.
  induction s as [|c s IH]; [reflexivity|].
  cbn [rstrip]. destruct (rstrip s ".") as [|c' r].
  - cbn [mem]. rewrite orb_false_r.
    destruct (Ascii.eqb c ".") eqn:E; [reflexivity|].
    rewrite endswith_dot_cons. exact E.
  - rewrite endswith_dot_cons. exact IH.
Qed.

Lemma rstrip_fixed (s : string) : endswith s "." = false -> rstrip s "." = s.
Proof.
  induction s as [|c s IH]; [reflexivity|].
  rewrite endswith_dot_cons. cbn [rstrip]. destruct s as [|c' s].
  - cbn. intros ->. reflexivity.
  - intros H. rewrite (IH H). reflexivity.
Qed.

Lemma app_neq_self (p s : string) : p <> "" -> p ++ s <> s.
Proof.
  intros Hp E. apply (f_equal String.length) in E. rewrite length_app in E.
  destruct p; [congruence | simpl in E; lia].
Qed.

Lemma app_assoc (a b c : string) : (a ++ b) ++ c = a ++ b ++ c.
Proof. induction a as [|x a IH]; simpl; [reflexivity | now rewrite IH]. Qed.

Lemma qualified_neq (n d : string) : n ++ "." ++ d <> d.
Proof.
  rewrite <- app_assoc. apply app_neq_self. destruct n; discriminate.
Qed.

Lemma qualified_neq_left (n d : string) : n ++ "." ++ d <> n.
Proof.
  intros E. apply (f_equal String.length) in E.
  rewrite !length_app in E. simpl in E. lia.
Qed.

Lemma substring_app (p s : string) : substring 0 (String.length p) (p ++ s) = p.
Proof.
  induction p as [|c p IH]; simpl.
  - destruct s; reflexivity.
  - now rewrite IH.
Qed.

Lemma slice_to_neg_app (p s : string) :
  s <> "" -> slice_to_neg (p ++ s) (String.length s) = p.
Proof.
  intros Hs. unfold slice_to_neg.
  destruct (String.length s) eqn:E; [destruct s; [congruence | discriminate]|].
  rewrite <- E, length_app.
  replace (String.length p + String.length s - String.length s) with (String.length p) by lia.
  apply substring_app.
Qed.

End StrFacts.

(** ** Name derivation *)

Section Names.
Import Str.

(** On text, [fqdn] returns along one of its four branches. *)
Lemma fqdn_text (d n : string) :
  fqdn (VStr d) (VStr n) =
  Ok (if endswith n "." then rstrip n "."
      else if String.eqb d n then n
      else if endswith n ("." ++ d) then n
      else n ++ "." ++ d).
Proof.
  unfold fqdn, Py.eq_str.
  destruct (endswith n "."); [reflexivity|].
  destruct (String.eqb d n); [reflexivity|].
  destruct (endswith n ("." ++ d)); reflexivity.
Qed.

(** The names [fqdn] leaves alone: no trailing dot, and the domain itself
    or a name under it. *)
Lemma fqdn_fixed_iff (d f : string) :
  fqdn (VStr d) (VStr f) = Ok f <->
  endswith f "." = false /\ (f = d \/ endswith f ("." ++ d) = true).
Proof.
  rewrite fqdn_text.
  destruct (endswith f ".") eqn:Edot.
  - split; [|intros [? _]; discriminate].
    intros H. injection H as H.
    pose proof (rstrip_no_trailing_dot f) as Hr. rewrite H in Hr. congruence.
  - destruct (String.eqb_spec d f) as [->|NE]; [now split; [split; [|left]|]|].
    destruct (endswith f ("." ++ d)) eqn:Hsuf; [now split; [split; [|right]|]|].
    split.
    + intros H. injection H as H. now apply qualified_neq_left in H.
    + intros [_ [->|H]]; congruence.
Qed.

Lemma qualified_no_trailing_dot (d n : string) :
  d <> "" -> endswith d "." = false -> endswith (n ++ "." ++ d) "." = false.
Proof.
  intros Hd Hdot. rewrite <- app_assoc, endswith_dot_app; assumption.
Qed.

(** C2, counterexample: with domain "example.com" the name "www." becomes
    "www", and "www" becomes "www.example.com". *)
Lemma fqdn_not_idempotent :
  exists f,
    fqdn (VStr "example.com") (VStr "www.") = Ok f /\
    fqdn (VStr "example.com") (VStr f) <> Ok f.
Proof. exists "www". split; [reflexivity | discriminate]. Qed.

(** C2, amended: on text [fqdn] always returns; applying it again to its
    own result [f] gives [f] back exactly when [f] has no trailing dot and
    is the domain or ends with "." + domain.  That is the case for every
    name without trailing dot once the domain is non-empty and has no
    trailing dot itself. *)
Theorem fqdn_idempotent_iff (d n : string) :
  exists f,
    fqdn (VStr d) (VStr n) = Ok f /\
    (fqdn (VStr d) (VStr f) = Ok f <->
     endswith f "." = false /\ (f = d \/ endswith f ("." ++ d) = true)) /\
    (d <> "" -> endswith d "." = false -> endswith n "." = false ->
     fqdn (VStr d) (VStr f) = Ok f).
Proof.
  eexists. split; [apply fqdn_text|]. split; [apply fqdn_fixed_iff|].
  intros Hd Hdot Hn. apply fqdn_fixed_iff. rewrite Hn.
  destruct (String.eqb_spec d n) as [->|Hne]; [now split; [|left]|].
  destruct (endswith n ("." ++ d)) eqn:Hsuf; [now split; [|right]|].
  split; [now apply qualified_no_trailing_dot|].
  right. apply endswith_app.
Qed.

Lemma fqdn_idempotent_iff_witness :
  fqdn (VStr "example.com") (VStr "www.example.com") = Ok "www.example.com" /\
  fqdn (VStr "example.com") (VStr "www") = Ok "www.example.com".
Proof.
  destruct (fqdn_idempotent_iff "example.com" "www") as [f [Hf [_ Hidem]]].
  assert (E : f = "www.example.com") by (vm_compute in Hf; congruence).
  subst f. split; [|exact Hf].
  apply Hidem; [discriminate | reflexivity | reflexivity].
Defined.

(** C1, counterexample: the name "other.org" is read as relative to
    "example.com"; its subname is "other.org" and nothing is raised. *)
Lemma subname_other_org :
  DnsRecordConfig.subname
    (DnsRecordConfig.Build (VStr "example.com") (VStr "other.org") "A" 300 ["192.0.2.1"])
  = Ok "other.org".
Proof. reflexivity. Qed.

(** The same name written as absolute is rejected. *)
Example subname_other_org_absolute :
  DnsRecordConfig.subname
    (DnsRecordConfig.Build (VStr "example.com") (VStr "other.org.") "A" 300 ["192.0.2.1"])
  = Raise ConfigError.
Proof. reflexivity. Qed.

Example subname_apex :
  DnsRecordConfig.subname
    (DnsRecordConfig.Build (VStr "example.com") (VStr "example.com") "A" 300 ["192.0.2.1"])
  = Ok "@".
Proof. reflexivity. Qed.

Example subname_www :
  DnsRecordConfig.subname
    (DnsRecordConfig.Build (VStr "example.com") (VStr "www.example.com") "A" 300 ["192.0.2.1"])
  = Ok "www".
Proof. reflexivity. Qed.

(** C1, amended: on text, [subname] returns or raises a configuration
    error; it raises exactly when the name ends with a dot and, with its
    trailing dots removed, is neither the domain nor a name ending with
    "." + domain.  A name without trailing dot always has a subname. *)
Theorem subname_config_error_iff (d n ty : string) (ttl : Z) (vs : list string) :
  let r := DnsRecordConfig.Build (VStr d) (VStr n) ty ttl vs in
  (DnsRecordConfig.subname r = Raise ConfigError <->
   endswith n "." = true /\
   rstrip n "." <> d /\
   endswith (rstrip n ".") ("." ++ d) = false) /\
  (DnsRecordConfig.subname r = Raise ConfigError \/
   exists s, DnsRecordConfig.subname r = Ok s) /\
  (endswith n "." = false -> exists s, DnsRecordConfig.subname r = Ok s).
Proof.
  cbn zeta. unfold DnsRecordConfig.subname, DnsRecordConfig.fqdn.
  cbn [DnsRecordConfig.domain DnsRecordConfig.name].
  rewrite fqdn_text. cbn [rbind Py.eq_str].
  destruct (endswith n ".") eqn:Hdot.
  - destruct (String.eqb_spec d (rstrip n ".")) as [E|NE];
      [|destruct (endswith (rstrip n ".") ("." ++ d)) eqn:Hsuf];
      repeat split; try discriminate; eauto;
      try (intros (? & ? & ?); congruence); congruence.
  - assert (Hok : exists s,
      (let f := if String.eqb d n then n
                else if endswith n ("." ++ d) then n else n ++ "." ++ d in
       if String.eqb d f then Ok "@"
       else if endswith f ("." ++ d)
            then Ok (slice_to_neg f (String.length ("." ++ d)))
            else Raise ConfigError) = Ok s).
    { cbn zeta. destruct (String.eqb_spec d n) as [->|NE].
      - rewrite String.eqb_refl. eauto.
      - destruct (endswith n ("." ++ d)) eqn:Hsuf.
        + destruct (String.eqb d n); [eauto|]. rewrite Hsuf. eauto.
        + destruct (String.eqb_spec d (n ++ "." ++ d)) as [E|_]; [eauto|].
          rewrite endswith_app. eauto. }
    cbn zeta in Hok. destruct Hok as [s Hs]. rewrite Hs.
    repeat split; eauto; try discriminate;
      try (intros (? & ? & ?); congruence).
Qed.

Lemma subname_config_error_iff_witness :
  exists s,
    DnsRecordConfig.subname
      (DnsRecordConfig.Build (VStr "example.com") (VStr "mail") "MX" 300 ["10 mx.example.net."])
    = Ok s.
Proof.
  apply (subname_config_error_iff "example.com" "mail" "MX" 300 ["10 mx.example.net."]).
  reflexivity.
Defined.

(** A relative name is its own subname. *)
Lemma subname_relative (d n ty : string) (ttl : Z) (vs : list string) :
  endswith n "." = false -> n <> d -> endswith n ("." ++ d) = false ->
  DnsRecordConfig.subname (DnsRecordConfig.Build (VStr d) (VStr n) ty ttl vs) = Ok n.
Proof.
  intros Hdot Hne Hsuf.
  unfold DnsRecordConfig.subname, DnsRecordConfig.fqdn.
  cbn [DnsRecordConfig.domain DnsRecordConfig.name].
  rewrite fqdn_text, Hdot, Hsuf.
  destruct (String.eqb_spec d n) as [E|_]; [congruence|].
  cbn [rbind Py.eq_str].
  destruct (String.eqb_spec d (n ++ "." ++ d)) as [E|_].
  - symmetry in E. now apply qualified_neq in E.
  - rewrite endswith_app. f_equal.
    apply (slice_to_neg_app n ("." ++ d)). discriminate.
Qed.

End Names.
(** ** Loading a zone configuration *)

Section Loader.
Context {B : Builtins}.

(** What an accepted entry is stored as. *)
Lemma load_record_ok (domain item : value) (r : DnsRecordConfig.t) :
  load_record domain item = Ok r ->
  exists d v ttl,
    item = VDict d /\
    Py.int (Py.dict_get d "ttl" (VInt 300)) = Ok ttl /\
    Py.truthy (Py.dict_get d "name" VNone) = true /\
    Py.len (entry_values d) = Ok 1 /\
    Py.first (entry_values d) = Ok v /\
    r = DnsRecordConfig.Build domain (Py.dict_get d "name" VNone)
          (str_upper (Py.str (Py.dict_get d "type" (VStr "")))) ttl [Py.str v].
Proof.
  unfold load_record, entry_values. destruct item as [| | | | | |d]; try discriminate.
  destruct (Py.int _) as [ttl|] eqn:Ettl; [|discriminate]. cbn [rbind].
  destruct (Py.truthy (Py.dict_get d "name" VNone)) eqn:Ename; [|discriminate].
  cbn [negb orb].
  destruct (_ || _)%bool; [discriminate|].
  destruct (Py.len _) as [n|] eqn:Elen; [|discriminate]. cbn [rbind].
  destruct (Nat.eqb_spec n 1) as [->|]; [|discriminate]. cbn [negb].
  destruct (Py.first _) as [v|] eqn:Efirst; [|discriminate]. cbn [rbind].
  intros H. injection H as <-. exists d, v, ttl. repeat split; assumption.
Qed.

Lemma load_records_ok (domain : value) (items : list value) (rs : list DnsRecordConfig.t) :
  load_records domain items = Ok rs ->
  Forall2 (fun item r => load_record domain item = Ok r) items rs.
Proof.
  revert rs. induction items as [|item items IH]; intros rs; cbn [load_records].
  - intros H. injection H as <-. constructor.
  - destruct (load_record domain item) as [r|] eqn:Er; [|discriminate]. cbn [rbind].
    destruct (load_records domain items) as [rs'|]; [|discriminate]. cbn [rbind].
    intros H. injection H as <-. constructor; [exact Er | now apply IH].
Qed.

(** The loop stops at the first entry that raises, with its exception. *)
Lemma load_records_first_raise (domain : value) (pre post : list value) (item : value) (e : exn) :
  Forall (fun it => is_ok (load_record domain it) = true) pre ->
  load_record domain item = Raise e ->
  load_records domain (pre ++ item :: post)%list = Raise e.
Proof.
  intros Hpre Hitem. induction Hpre as [|it pre Hit _ IH]; cbn [load_records List.app].
  - now rewrite Hitem.
  - destruct (load_record domain it); [|discriminate]. cbn [rbind]. now rewrite IH.
Qed.

Lemma load_records_raise (domain : value) (items : list value) (item : value) (e : exn) :
  In item items -> load_record domain item = Raise e ->
  exists e', load_records domain items = Raise e'.
Proof.
  intros Hin Hitem. induction items as [|it items IH]; [contradiction|].
  cbn [load_records]. destruct (load_record domain it) as [r|e0] eqn:E.
  - cbn [rbind]. destruct Hin as [->|Hin]; [congruence|].
    destruct (IH Hin) as [e' ->]. now exists e'.
  - now exists e0.
Qed.

(** When every entry before the rejected one loads or raises a
    configuration error, the load raises a configuration error. *)
Lemma load_records_config_error (domain : value) (pre post : list value) (item : value) :
  Forall (fun it => forall e, load_record domain it = Raise e -> e = ConfigError) pre ->
  load_record domain item = Raise ConfigError ->
  load_records domain (pre ++ item :: post)%list = Raise ConfigError.
Proof.
  intros Hpre Hitem. induction Hpre as [|it pre Hit _ IH]; cbn [load_records List.app].
  - now rewrite Hitem.
  - destruct (load_record domain it) as [r|e] eqn:E; cbn [rbind].
    + now rewrite IH.
    + now rewrite (Hit e eq_refl).
Qed.

(** An entry whose [values] is a list of zero or several elements is
    rejected: by [int] when it refuses the ttl, with a configuration error
    otherwise. *)
Lemma load_record_bad_values (domain : value) (d : list (string * value)) (vs : list value) :
  Py.lookup "values" d = Some (VList vs) -> List.length vs <> 1 ->
  match Py.int (Py.dict_get d "ttl" (VInt 300)) with
  | Ok _ => load_record domain (VDict d) = Raise ConfigError
  | Raise e => load_record domain (VDict d) = Raise e
  end.
Proof.
  intros Hv Hlen. unfold load_record.
  destruct (Py.int _) as [ttl|e]; [|reflexivity]. cbn [rbind].
  destruct (negb _ || _ || _)%bool eqn:E; [reflexivity|].
  unfold entry_values, Py.dict_get. rewrite Hv.
  unfold entry_values, Py.dict_get in E. rewrite Hv in E.
  destruct vs as [|v vs].
  - rewrite !orb_false_iff in E. destruct E as [_ E]. discriminate.
  - cbn. destruct vs; [cbn in Hlen; congruence | reflexivity].
Qed.

Lemma load_zone_config_ok (data dom : value) (recs : list DnsRecordConfig.t) :
  load_zone_config data = Ok (dom, recs) ->
  exists top items,
    data = VDict top /\
    dom = Py.dict_get top "domain" VNone /\
    Py.or_else (Py.dict_get top "records" VNone) (VList []) = VList items /\
    load_records dom items = Ok recs.
Proof.
  unfold load_zone_config. destruct data as [| | | | | |top]; try discriminate.
  destruct (negb _); [discriminate|].
  destruct (Py.or_else _ _) as [| | | | |items|] eqn:Erec; try discriminate.
  destruct (load_records _ items) as [rs|] eqn:E; [|discriminate]. cbn [rbind].
  intros H. injection H as <- <-. exists top, items. repeat split; assumption.
Qed.

(** C10: every entry that [load_zone_config] accepts is a mapping; the
    record stored for it has as type the [str] of the entry's [type] (of
    the empty text when the key is missing) upper-cased by [str.upper],
    ttl 300 when the entry has no [ttl] key, and as only value the [str] of
    the first element of the entry's [values]. *)
Theorem load_zone_config_stores (data dom : value) (recs : list DnsRecordConfig.t) :
  load_zone_config data = Ok (dom, recs) ->
  exists top items,
    data = VDict top /\
    Py.or_else (Py.dict_get top "records" VNone) (VList []) = VList items /\
    Forall2
      (fun item r =>
         exists d v,
           item = VDict d /\
           DnsRecordConfig.type r = str_upper (Py.str (Py.dict_get d "type" (VStr ""))) /\
           (Py.lookup "ttl" d = None -> DnsRecordConfig.ttl r = 300%Z) /\
           (forall z, Py.lookup "ttl" d = Some (VInt z) -> DnsRecordConfig.ttl r = z) /\
           Py.first (entry_values d) = Ok v /\
           (forall vs, Py.lookup "values" d = Some (VList vs) -> vs = [v]) /\
           DnsRecordConfig.values r = [Py.str v] /\
           DnsRecordConfig.domain r = dom /\
           DnsRecordConfig.name r = Py.dict_get d "name" VNone)
      items recs.
Proof.
  intros H. apply load_zone_config_ok in H.
  destruct H as (top & items & -> & Hdom & Hrec & Hload).
  exists top, items. repeat split; [exact Hrec|].
  apply load_records_ok in Hload.
  eapply Forall2_impl; [|exact Hload].
  intros item r Hr. apply load_record_ok in Hr.
  destruct Hr as (d & v & ttl & -> & Httl & _ & Hlen & Hfirst & ->).
  exists d, v. cbn. repeat split; try assumption.
  - intros Hno. unfold Py.dict_get in Httl. rewrite Hno in Httl.
    cbn in Httl. congruence.
  - intros z Hz. unfold Py.dict_get in Httl. rewrite Hz in Httl.
    cbn in Httl. congruence.
  - intros vs Hvs. unfold entry_values, Py.dict_get in Hlen, Hfirst.
    rewrite Hvs in Hlen, Hfirst.
    destruct vs as [|x [|y vs]]; cbn in Hlen, Hfirst; try discriminate.
    congruence.
Qed.

(** C8, amended: every record of a loaded config has exactly one value.
    A config with an entry whose [values] list is empty or has several
    elements never loads; the exception is a configuration error when
    [int] accepts that entry's ttl and each entry before it either loads
    or raises a configuration error. *)
Theorem load_zone_config_one_value :
  (forall data dom recs,
      load_zone_config data = Ok (dom, recs) ->
      Forall (fun r => List.length (DnsRecordConfig.values r) = 1) recs) /\
  (forall top pre post d vs,
      Py.or_else (Py.dict_get top "records" VNone) (VList []) = VList (pre ++ VDict d :: post) ->
      Py.lookup "values" d = Some (VList vs) ->
      List.length vs <> 1 ->
      (exists e, load_zone_config (VDict top) = Raise e) /\
      (is_ok (Py.int (Py.dict_get d "ttl" (VInt 300))) = true ->
       Forall (fun it => forall e,
                 load_record (Py.dict_get top "domain" VNone) it = Raise e -> e = ConfigError)
              pre ->
       load_zone_config (VDict top) = Raise ConfigError)).
Proof.
  split.
  - intros data dom recs H. apply load_zone_config_ok in H.
    destruct H as (top & items & _ & _ & _ & Hload).
    apply load_records_ok in Hload.
    induction Hload as [|item r items recs Hr _ IH]; constructor; [|exact IH].
    apply load_record_ok in Hr. destruct Hr as (d & v & ttl & _ & _ & _ & _ & _ & ->).
    reflexivity.
  - intros top pre post d vs Hrec Hv Hlen.
    pose proof (load_record_bad_values (Py.dict_get top "domain" VNone) d vs Hv Hlen) as Hbad.
    unfold load_zone_config. rewrite Hrec.
    destruct (negb (Py.truthy (Py.dict_get top "domain" VNone))).
    { split; [now exists ConfigError | reflexivity]. }
    split.
    + assert (He : exists e, load_record (Py.dict_get top "domain" VNone) (VDict d) = Raise e).
      { destruct (Py.int _) as [z|e]; eauto. }
      destruct He as [e He].
      destruct (load_records_raise (Py.dict_get top "domain" VNone)
                  (pre ++ VDict d :: post) (VDict d) e) as [e' ->].
      * apply in_or_app. right. now left.
      * exact He.
      * now exists e'.
    + intros Hint Hpre. destruct (Py.int _) as [z|e]; [|discriminate].
      now rewrite (load_records_config_error _ pre post _ Hpre Hbad).
Qed.

End Loader.

(** C8, counterexample: an entry with an empty [values] list and a null
    [ttl] ends the load with the [TypeError] of [int(None)], raised before
    the values are looked at. *)
Lemma load_zone_config_null_ttl :
  load_zone_config (B := Sample.builtins)
    (VDict [("domain", VStr "example.com");
            ("records",
             VList [VDict [("name", VStr "www"); ("type", VStr "A");
                           ("ttl", VNone); ("values", VList [])]])])
  = Raise TypeError.
Proof. reflexivity. Qed.

Lemma load_zone_config_stores_witness :
  exists top items,
    Sample.zone = VDict top /\
    Py.or_else (Py.dict_get top "records" VNone) (VList []) = VList items /\
    Forall2
      (fun item r =>
         exists d v,
           item = VDict d /\
           DnsRecordConfig.type r = str_upper (Builtins := Sample.builtins) (Py.str (B := Sample.builtins) (Py.dict_get d "type" (VStr ""))) /\
           (Py.lookup "ttl" d = None -> DnsRecordConfig.ttl r = 300%Z) /\
           (forall z, Py.lookup "ttl" d = Some (VInt z) -> DnsRecordConfig.ttl r = z) /\
           Py.first (entry_values d) = Ok v /\
           (forall vs, Py.lookup "values" d = Some (VList vs) -> vs = [v]) /\
           DnsRecordConfig.values r = [Py.str (B := Sample.builtins) v] /\
           DnsRecordConfig.domain r = VStr "example.com" /\
           DnsRecordConfig.name r = Py.dict_get d "name" VNone)
      items Sample.zone_records.
Proof.
  apply (load_zone_config_stores (B := Sample.builtins) Sample.zone). reflexivity.
Defined.

Lemma load_zone_config_one_value_witness :
  Forall (fun r => List.length (DnsRecordConfig.values r) = 1) Sample.zone_records /\
  load_zone_config (B := Sample.builtins)
    (VDict [("domain", VStr "example.com");
            ("records",
             VList [VDict [("name", VStr "www"); ("type", VStr "A");
                           ("values", VList [VStr "192.0.2.1"; VStr "192.0.2.2"])]])])
  = Raise ConfigError.
Proof.
  destruct (load_zone_config_one_value (B := Sample.builtins)) as [Hone Hbad]. split.
  - apply (Hone Sample.zone (VStr "example.com")). reflexivity.
  - apply (Hbad [("domain", VStr "example.com");
                 ("records",
                  VList [VDict [("name", VStr "www"); ("type", VStr "A");
                                ("values", VList [VStr "192.0.2.1"; VStr "192.0.2.2"])]])]
             [] []
             [("name", VStr "www"); ("type", VStr "A");
              ("values", VList [VStr "192.0.2.1"; VStr "192.0.2.2"])]
             [VStr "192.0.2.1"; VStr "192.0.2.2"]).
    + reflexivity.
    + reflexivity.
    + cbn. lia.
    + reflexivity.
    + constructor.
Defined.


(** Lengths and subscripts count code points: a one-letter value outside
    ASCII, here U+00E9 in its two bytes, is one value. *)
Example load_record_accented_value :
  let e_acute := String (ascii_of_nat 195) (String (ascii_of_nat 169) "") in
  load_record (B := Sample.builtins) (VStr "example.com")
    (VDict [("name", VStr "www"); ("type", VStr "txt"); ("values", VStr e_acute)])
  = Ok (DnsRecordConfig.Build (VStr "example.com") (VStr "www") "TXT" 300 [e_acute]).
Proof. reflexivity. Qed.

(** A float ttl is cut to its integer part, 1.5 to 1; an infinite one is
    refused by [int] with [OverflowError]. *)
Example load_record_float_ttl :
  load_record (B := Sample.builtins) (VStr "example.com")
    (VDict [("name", VStr "www"); ("type", VStr "A");
            ("ttl", VFloat (S754_finite false 3 (-1))); ("values", VList [VStr "192.0.2.1"])])
  = Ok (DnsRecordConfig.Build (VStr "example.com") (VStr "www") "A" 1 ["192.0.2.1"]).
Proof. reflexivity. Qed.

Example load_record_infinite_ttl :
  load_record (B := Sample.builtins) (VStr "example.com")
    (VDict [("name", VStr "www"); ("type", VStr "A");
            ("ttl", VFloat (S754_infinity false)); ("values", VList [VStr "192.0.2.1"])])
  = Raise OverflowError.
Proof. reflexivity. Qed.

(** ** Computations *)

Section Monad.
Context {A C : Type}.

Lemma bind_ok (m : M A) (k : A -> M C) (h h' : list Request) (a : A) :
  m h = (Ok a, h') -> bind m k h = k a h'.
Proof. unfold bind. now intros ->. Qed.

Lemma bind_raise (m : M A) (k : A -> M C) (h h' : list Request) (e : exn) :
  m h = (Raise e, h') -> bind m k h = (Raise e, h').
Proof. unfold bind. now intros ->. Qed.

Lemma bind_lift (r : result A) (k : A -> M C) (h : list Request) :
  bind (lift r) k h = match r with Ok a => k a h | Raise e => (Raise e, h) end.
Proof. unfold bind, lift. now destruct r. Qed.

Lemma send_completed (w : World) (r : Request) (h : list Request) (resp : Response) :
  http w h r = Completed resp -> send w r h = (Ok resp, (h ++ [r])%list).
Proof. unfold send. now intros ->. Qed.

Lemma send_fails (w : World) (r : Request) (h : list Request) (e : exn) :
  http w h r = Fails e -> send w r h = (Raise e, (h ++ [r])%list).
Proof. unfold send. now intros ->. Qed.

End Monad.

Lemma not_200_201_iff (status : Z) :
  not_200_201 status = true <-> status <> 200%Z /\ status <> 201%Z.
Proof.
  unfold not_200_201.
  destruct (Z.eqb_spec status 200), (Z.eqb_spec status 201); cbn; intuition congruence.
Qed.

(** ** Health checks *)

Lemma timeout_is_transport_error (e : httpx_exc) :
  is_TimeoutException e = true -> is_TransportError e = true.
Proof. now destruct e. Qed.

Lemma transport_error_is_request_error (e : httpx_exc) :
  is_TransportError e = true -> is_RequestError e = true.
Proof. now destruct e. Qed.

(** A completed request is judged by its status. *)
Lemma check_health_completed (w : World) (url : value) (expected timeout_s : Z)
  (h : list Request) (resp : Response) :
  http w h (Failover.health_request url timeout_s) = Completed resp ->
  Failover.check_health w url expected timeout_s h
  = (Ok (Z.eqb (status_code resp) expected),
     (h ++ [Failover.health_request url timeout_s])%list).
Proof.
  intros Hr. unfold Failover.check_health, try_except, bind, ret, send. now rewrite Hr.
Qed.

(** C9: [check_health] answers healthy exactly when the request completes
    with the expected status; a transport failure, a timeout included,
    gives unhealthy and raises nothing. *)
Theorem check_health_healthy_iff (w : World) (url : value) (expected timeout_s : Z)
  (h : list Request) :
  let req := Failover.health_request url timeout_s in
  (Failover.check_health w url expected timeout_s h = (Ok true, (h ++ [req])%list) <->
   exists resp, http w h req = Completed resp /\ status_code resp = expected) /\
  (forall resp, http w h req = Completed resp ->
     Failover.check_health w url expected timeout_s h
     = (Ok (Z.eqb (status_code resp) expected), (h ++ [req])%list)) /\
  (forall e, http w h req = Fails (Httpx e) ->
     is_TransportError e = true \/ is_TimeoutException e = true ->
     Failover.check_health w url expected timeout_s h = (Ok false, (h ++ [req])%list)).
Proof.
  cbn zeta. unfold Failover.check_health, try_except, bind, ret, send.
  destruct (http w h (Failover.health_request url timeout_s)) as [resp|e] eqn:E.
  - repeat split.
    + intros H. exists resp. split; [reflexivity|].
      injection H as H. now apply Z.eqb_eq.
    + intros (resp' & Hr & <-). injection Hr as <-. now rewrite Z.eqb_refl.
    + intros resp' Hr. now injection Hr as <-.
    + discriminate.
  - repeat split.
    + destruct (Failover.catches_RequestError e); discriminate.
    + intros (resp & Hr & _). discriminate.
    + discriminate.
    + intros e' He Hkind. injection He as ->. cbn.
      assert (Ht : is_TransportError e' = true).
      { destruct Hkind as [Ht|Ht]; [exact Ht | now apply timeout_is_transport_error]. }
      now rewrite (transport_error_is_request_error e' Ht).
Qed.

Lemma check_health_healthy_iff_witness :
  Failover.check_health (Sample.world 503 200 "primary.example.com" 200)
    (VStr "https://failover.example.com/health") 200 5 []
  = (Ok true, [Failover.health_request (VStr "https://failover.example.com/health") 5]).
Proof.
  apply (check_health_healthy_iff (Sample.world 503 200 "primary.example.com" 200)
           (VStr "https://failover.example.com/health") 200 5 []).
  eexists. split; reflexivity.
Defined.

(** An exception that is not a [RequestError] leaves [check_health]. *)
Lemma check_health_propagates (w : World) (url : value) (expected timeout_s : Z)
  (h : list Request) (e : exn) :
  http w h (Failover.health_request url timeout_s) = Fails e ->
  Failover.catches_RequestError e = false ->
  Failover.check_health w url expected timeout_s h
  = (Raise e, (h ++ [Failover.health_request url timeout_s])%list).
Proof.
  intros He Hc. unfold Failover.check_health, try_except, bind, send.
  now rewrite He, Hc.
Qed.

(** ** Provider clients *)

Section Clients.
Context {B : Builtins} (w : World).

Lemma get_zone_id_eq (cf : CloudflareClient.t) (zone_name : value) (h : list Request)
  (resp : Response) :
  http w h (CloudflareClient.request cf GET "/zones" [("name", zone_name)] None)
  = Completed resp ->
  CloudflareClient.get_zone_id w cf zone_name h =
  (if negb (Z.eqb (status_code resp) 200) then Raise ProviderError
   else
     (result <- json resp ;;
      r <- Py.get result "result" ;;
      if negb (Py.truthy (Py.or_else r (VList []))) then Raise ProviderError
      else z <- Py.first (Py.or_else r (VList [])) ;; Py.getitem z "id")%result,
   (h ++ [CloudflareClient.request cf GET "/zones" [("name", zone_name)] None])%list).
Proof.
  intros Hr. unfold CloudflareClient.get_zone_id.
  rewrite (bind_ok _ _ _ _ _ (send_completed _ _ _ _ Hr)).
  destruct (negb _); [reflexivity|].
  rewrite bind_lift. destruct (json resp) as [result|]; [|reflexivity].
  rewrite bind_lift. cbn [rbind]. destruct (Py.get result "result") as [r|]; [|reflexivity].
  cbn [rbind]. destruct (negb _); [reflexivity|].
  rewrite bind_lift. now destruct (Py.first _).
Qed.

(** C3, amended: [get_zone_id] raises a provider error when the answer's
    status is not 200 and when the answer lists no zone; when the answer
    lists one zone or several, it returns the id of the first. *)
Theorem get_zone_id_first_match (cf : CloudflareClient.t) (zone_name : value)
  (h : list Request) (resp : Response) :
  let req := CloudflareClient.request cf GET "/zones" [("name", zone_name)] None in
  http w h req = Completed resp ->
  (status_code resp <> 200%Z ->
   CloudflareClient.get_zone_id w cf zone_name h = (Raise ProviderError, (h ++ [req])%list)) /\
  (forall top,
     status_code resp = 200%Z -> body resp = Some (VDict top) ->
     Py.truthy (Py.dict_get top "result" VNone) = false ->
     CloudflareClient.get_zone_id w cf zone_name h = (Raise ProviderError, (h ++ [req])%list)) /\
  (forall top zone more id,
     status_code resp = 200%Z -> body resp = Some (VDict top) ->
     Py.dict_get top "result" VNone = VList (VDict zone :: more) ->
     Py.lookup "id" zone = Some id ->
     CloudflareClient.get_zone_id w cf zone_name h = (Ok id, (h ++ [req])%list)).
Proof.
  cbn zeta. intros Hr. rewrite (get_zone_id_eq cf zone_name h resp Hr).
  repeat split.
  - intros Hs. apply Z.eqb_neq in Hs. now rewrite Hs.
  - intros top Hs Hb Hz. rewrite Hs. cbn [Z.eqb Pos.eqb negb].
    unfold json. rewrite Hb. cbn [rbind Py.get].
    unfold Py.or_else. now rewrite Hz.
  - intros top zone more id Hs Hb Hz Hid. rewrite Hs. cbn [Z.eqb Pos.eqb negb].
    unfold json. rewrite Hb. cbn [rbind Py.get]. rewrite Hz.
    cbn. now rewrite Hid.
Qed.

Lemma upsert_rrset_eq (c : DeSecClient.t) (domain : value) (subname rtype : string) (ttl : Z)
  (records : list string) (h : list Request) :
  let req :=
    DeSecClient.request c PUT
      ("/domains/" ++ Py.str domain ++ "/rrsets/" ++ subname ++ "/" ++ rtype ++ "/")
      (Some (DeSecClient.rrset_payload subname rtype ttl records)) in
  DeSecClient.upsert_rrset w c domain subname rtype ttl records h =
  (match http w h req with
   | Completed resp => if not_200_201 (status_code resp) then Raise ProviderError else Ok tt
   | Fails e => Raise e
   end, (h ++ [req])%list).
Proof.
  cbn zeta. unfold DeSecClient.upsert_rrset, bind, send.
  destruct (http w h _) as [resp|e]; [|reflexivity].
  now destruct (not_200_201 _).
Qed.

Lemma upsert_dns_record_eq (cf : CloudflareClient.t) (zone_id : value)
  (name rtype content : string) (ttl : Z) (proxied : option bool)
  (h h1 : list Request) (existing : value) (req : Request) :
  CloudflareClient.get_dns_record w cf zone_id name rtype h = (Ok existing, h1) ->
  CloudflareClient.write_request cf zone_id existing name rtype content ttl proxied = Ok req ->
  CloudflareClient.upsert_dns_record w cf zone_id name rtype content ttl proxied h =
  (match http w h1 req with
   | Completed resp => if not_200_201 (status_code resp) then Raise ProviderError else Ok tt
   | Fails e => Raise e
   end, (h1 ++ [req])%list).
Proof.
  intros Hget Hreq. unfold CloudflareClient.upsert_dns_record.
  rewrite (bind_ok _ _ _ _ _ Hget). unfold CloudflareClient.write_request in Hreq.
  destruct (Py.truthy existing).
  - rewrite bind_lift. destruct (Py.getitem existing "id") as [rid|]; [|discriminate].
    cbn [rbind] in Hreq. injection Hreq as <-.
    unfold bind, send. destruct (http w h1 _); [|reflexivity].
    now destruct (not_200_201 _).
  - injection Hreq as <-.
    unfold bind, send. destruct (http w h1 _); [|reflexivity].
    now destruct (not_200_201 _).
Qed.

End Clients.

(** C7, counterexample: deSEC answers 204, a success status, and
    [upsert_rrset] raises a provider error. *)
Lemma upsert_rrset_204 :
  let w := Sample.world 503 200 "primary.example.com" 204 in
  let c := DeSecClient.init "desec-token" in
  (200 <= 204 < 300)%Z /\
  (forall h r, meth r = PUT -> exists resp, http w h r = Completed resp /\ status_code resp = 204%Z) /\
  fst (DeSecClient.upsert_rrset (B := Sample.builtins) w c (VStr "example.com") "www" "CNAME" 60
         ["failover.example.com."] [])
  = Raise ProviderError.
Proof.
  cbn zeta. split; [lia|]. split; [|reflexivity].
  intros h r Hm. eexists. cbn. rewrite Hm. split; reflexivity.
Qed.

(** C7, amended: once the request is answered, [upsert_rrset] raises a
    provider error exactly when the status is neither 200 nor 201, and
    returns exactly when it is one of the two.  The same holds of the
    update or create that [upsert_dns_record] sends after its lookup. *)
Theorem upsert_raises_iff {B : Builtins} (w : World) :
  (forall c domain subname rtype ttl records h resp,
     http w h
       (DeSecClient.request c PUT
          ("/domains/" ++ Py.str domain ++ "/rrsets/" ++ subname ++ "/" ++ rtype ++ "/")
          (Some (DeSecClient.rrset_payload subname rtype ttl records)))
     = Completed resp ->
     let r := fst (DeSecClient.upsert_rrset w c domain subname rtype ttl records h) in
     (r = Raise ProviderError <-> status_code resp <> 200%Z /\ status_code resp <> 201%Z) /\
     (r = Ok tt <-> status_code resp = 200%Z \/ status_code resp = 201%Z)) /\
  (forall cf zone_id name rtype content ttl proxied h h1 existing req resp,
     CloudflareClient.get_dns_record w cf zone_id name rtype h = (Ok existing, h1) ->
     CloudflareClient.write_request cf zone_id existing name rtype content ttl proxied = Ok req ->
     http w h1 req = Completed resp ->
     let r := fst (CloudflareClient.upsert_dns_record w cf zone_id name rtype content ttl
                     proxied h) in
     (r = Raise ProviderError <-> status_code resp <> 200%Z /\ status_code resp <> 201%Z) /\
     (r = Ok tt <-> status_code resp = 200%Z \/ status_code resp = 201%Z)).
Proof.
  assert (Hcase : forall status,
    let r := if not_200_201 status then Raise ProviderError else Ok tt in
    (r = Raise ProviderError <-> status <> 200%Z /\ status <> 201%Z) /\
    (r = Ok tt <-> status = 200%Z \/ status = 201%Z)).
  { intros status. cbn zeta. unfold not_200_201.
    destruct (Z.eqb_spec status 200), (Z.eqb_spec status 201); cbn;
      intuition (congruence || discriminate). }
  split.
  - intros c domain subname rtype ttl records h resp Hr. cbn zeta.
    rewrite upsert_rrset_eq. cbn zeta. rewrite Hr. cbn [fst]. apply Hcase.
  - intros cf zone_id name rtype content ttl proxied h h1 existing req resp Hget Hreq Hr.
    cbn zeta.
    rewrite (upsert_dns_record_eq w cf zone_id name rtype content ttl proxied h h1
               existing req Hget Hreq).
    rewrite Hr. cbn [fst]. apply Hcase.
Qed.

Lemma upsert_raises_iff_witness :
  fst (DeSecClient.upsert_rrset (B := Sample.builtins)
         (Sample.world 503 200 "primary.example.com" 201)
         (DeSecClient.init "desec-token") (VStr "example.com") "www" "CNAME" 60
         ["failover.example.com."] [])
  = Ok tt.
Proof.
  destruct (upsert_raises_iff (B := Sample.builtins)
              (Sample.world 503 200 "primary.example.com" 201)) as [Hdesec _].
  eapply (Hdesec (DeSecClient.init "desec-token") (VStr "example.com") "www" "CNAME" 60%Z
            ["failover.example.com."] []).
  - reflexivity.
  - right. reflexivity.
Defined.

(** C3, counterexample: two zones match and [get_zone_id] returns the
    first one's id. *)
Lemma get_zone_id_two_zones :
  CloudflareClient.get_zone_id Sample.two_zones (CloudflareClient.init "cf-token")
    (VStr "example.com") []
  = (Ok (VStr "z1"),
     [CloudflareClient.request (CloudflareClient.init "cf-token") GET "/zones"
        [("name", VStr "example.com")] None]).
Proof. reflexivity. Qed.

Lemma get_zone_id_first_match_witness :
  CloudflareClient.get_zone_id Sample.two_zones (CloudflareClient.init "cf-token")
    (VStr "example.com") []
  = (Ok (VStr "z1"),
     [CloudflareClient.request (CloudflareClient.init "cf-token") GET "/zones"
        [("name", VStr "example.com")] None]).
Proof.
  eapply (get_zone_id_first_match Sample.two_zones (CloudflareClient.init "cf-token")
            (VStr "example.com") []); reflexivity.
Defined.

(** ** What a computation adds to the requests *)

Section Adds.
Context {B : Builtins} (w : World) (P : Request -> Prop).

Lemma adds_ret {A} (a : A) : adds P (ret a).
Proof. intros h. exists []. cbn. now rewrite List.app_nil_r. Qed.

Lemma adds_raise {A} (e : exn) : adds P (raise (A := A) e).
Proof. intros h. exists []. cbn. now rewrite List.app_nil_r. Qed.

Lemma adds_lift {A} (r : result A) : adds P (lift r).
Proof. intros h. exists []. cbn. now rewrite List.app_nil_r. Qed.

Lemma adds_bind {A C} (m : M A) (k : A -> M C) :
  adds P m -> (forall a, adds P (k a)) -> adds P (bind m k).
Proof.
  intros Hm Hk h. unfold bind. destruct (Hm h) as (n1 & E1 & F1).
  destruct (m h) as [[a|e] h1]; cbn [snd] in E1; subst h1.
  - destruct (Hk a (h ++ n1)%list) as (n2 & E2 & F2).
    exists (n1 ++ n2)%list. rewrite E2, List.app_assoc. split; [reflexivity|].
    now apply Forall_app.
  - now exists n1.
Qed.

Lemma adds_try_except {A} (m handler : M A) (handles : exn -> bool) :
  adds P m -> adds P handler -> adds P (try_except m handles handler).
Proof.
  intros Hm Hh h. unfold try_except. destruct (Hm h) as (n1 & E1 & F1).
  destruct (m h) as [[a|e] h1]; cbn [snd] in E1; subst h1.
  - now exists n1.
  - destruct (handles e).
    + destruct (Hh (h ++ n1)%list) as (n2 & E2 & F2).
      exists (n1 ++ n2)%list. rewrite E2, List.app_assoc. split; [reflexivity|].
      now apply Forall_app.
    + now exists n1.
Qed.

Lemma adds_send (r : Request) : P r -> adds P (send w r).
Proof.
  intros Hr h. exists [r]. unfold send.
  destruct (http w h r); cbn [snd]; (split; [reflexivity|]); now repeat constructor.
Qed.

Lemma adds_if {A} (b : bool) (m1 m2 : M A) :
  adds P m1 -> adds P m2 -> adds P (if b then m1 else m2).
Proof. now destruct b. Qed.

Lemma adds_run {A} (m : M A) (h h' : list Request) (r : result A) :
  adds P m -> m h = (r, h') -> exists new, h' = (h ++ new)%list /\ Forall P new.
Proof. intros Hm E. destruct (Hm h) as (new & Hs & F). rewrite E in Hs. now exists new. Qed.

End Adds.

Ltac adds_steps :=
  repeat first
    [ apply adds_ret | apply adds_raise | apply adds_lift
    | apply adds_send; first [reflexivity | exact I]
    | apply adds_if
    | apply adds_try_except
    | apply adds_bind; [|intros ?] ].

Section ReadsOnly.
Context {B : Builtins} (w : World).

Lemma reads_only_get_zone_id (cf : CloudflareClient.t) (zone_name : value) :
  reads_only (CloudflareClient.get_zone_id w cf zone_name).
Proof. unfold reads_only, CloudflareClient.get_zone_id. adds_steps. Qed.

Lemma reads_only_get_dns_record (cf : CloudflareClient.t) (zone_id : value)
  (name rtype : string) :
  reads_only (CloudflareClient.get_dns_record w cf zone_id name rtype).
Proof. unfold reads_only, CloudflareClient.get_dns_record. adds_steps. Qed.

Lemma reads_only_check_health (url : value) (expected timeout_s : Z) :
  reads_only (Failover.check_health w url expected timeout_s).
Proof. unfold reads_only, Failover.check_health. adds_steps. Qed.

Lemma reads_only_desired_target (l : Failover.Locals) :
  reads_only (Failover.desired_target w l).
Proof.
  unfold Failover.desired_target.
  apply adds_bind; [apply reads_only_check_health | intros ?].
  apply adds_if; [adds_steps|].
  apply adds_bind; [apply reads_only_check_health | intros ?]. adds_steps.
Qed.

Lemma reads_only_current_target_info (cf : CloudflareClient.t) (zone_id : value)
  (router_fqdn : string) :
  reads_only (Failover.current_target_info w cf zone_id router_fqdn).
Proof.
  unfold Failover.current_target_info.
  apply adds_bind; [apply reads_only_get_dns_record | intros ?]. adds_steps.
Qed.

(** A computation only ever extends the list of requests. *)
Lemma extends_set_router_target (cf : CloudflareClient.t) (desec : DeSecClient.t)
  (zone_name zone_id router_name : value) (router_fqdn target : string) (ttl : Z) :
  adds (fun _ => True)
    (Failover.set_router_target w cf desec zone_name zone_id router_name router_fqdn target ttl).
Proof.
  unfold Failover.set_router_target, CloudflareClient.upsert_dns_record,
    CloudflareClient.get_dns_record, DeSecClient.upsert_rrset.
  adds_steps.
Qed.

End ReadsOnly.

(** ** The failover routine *)

Section FailoverFacts.
Context {B : Builtins} (w : World).

Lemma lookup_app (k : string) (d1 d2 : list (string * value)) :
  Py.lookup k (d1 ++ d2)%list =
  match Py.lookup k d1 with
  | Some v => Some v
  | None => Py.lookup k d2
  end.
Proof.
  induction d1 as [|[k' v] d1 IH]; [reflexivity|].
  cbn [Py.lookup List.app]. now destruct (String.eqb k k').
Qed.

Lemma lookup_setdefault_other (k k' : string) (v : value) (d : list (string * value)) :
  String.eqb k k' = false -> Py.lookup k (setdefault d k' v) = Py.lookup k d.
Proof.
  intros Hk. unfold setdefault. destruct (Py.lookup k' d); [reflexivity|].
  rewrite lookup_app. destruct (Py.lookup k d); [reflexivity|].
  cbn. now rewrite Hk.
Qed.

Lemma getitem_setdefault_ok (k k' : string) (v x : value) (d : list (string * value)) :
  String.eqb k k' = false ->
  Py.getitem (VDict (setdefault d k' v)) k = Ok x -> Py.lookup k d = Some x.
Proof.
  intros Hk. cbn [Py.getitem]. rewrite (lookup_setdefault_other k k' v d Hk).
  destruct (Py.lookup k d); [congruence | discriminate].
Qed.

(** The locals are what the configuration file says. *)
Lemma prepare_ok (data : value) (l : Failover.Locals) :
  Failover.prepare w data = Ok l ->
  exists d primary_target secondary_target es,
    data = VDict d /\
    Py.lookup "domain" d = Some (Failover.domain l) /\
    Py.lookup "router_record" d = Some (Failover.router_record l) /\
    Py.lookup "primary_target" d = Some primary_target /\
    Py.lookup "secondary_target" d = Some secondary_target /\
    Py.lookup "primary_check_url" d = Some (Failover.primary_check_url l) /\
    Py.lookup "secondary_check_url" d = Some (Failover.secondary_check_url l) /\
    Py.lookup "expected_status" d = Some es /\
    Py.int es = Ok (Failover.expected_status l) /\
    fqdn (Failover.domain l) (Failover.router_record l) = Ok (Failover.router_fqdn l) /\
    fqdn (Failover.domain l) primary_target = Ok (Failover.primary_fqdn l) /\
    fqdn (Failover.domain l) secondary_target = Ok (Failover.secondary_fqdn l).
Proof.
  unfold Failover.prepare, load_failover_config.
  destruct data as [| | | | | |d]; try discriminate.
  destruct (check_required required_keys d); [|discriminate]. cbn [rbind].
  intros H.
  repeat match type of H with
         | rbind ?r _ = Ok _ => destruct r eqn:?; cbn [rbind] in H; [|discriminate]
         end.
  injection H as <-. cbn.
  repeat match goal with
         | E : Py.getitem (VDict (setdefault _ _ _)) _ = Ok _ |- _ =>
             apply getitem_setdefault_ok in E; [|reflexivity]
         end.
  eexists d, _, _, _. repeat split; eassumption.
Qed.

(** A target is desired only after a healthy check: the primary target
    after a healthy primary check, the secondary target after an unhealthy
    primary and a healthy secondary check. *)
Lemma desired_target_some (l : Failover.Locals) (h1 h2 : list Request) (target : string) :
  Failover.desired_target w l h1 = (Ok (Some target), h2) ->
  (target = Failover.primary_fqdn l /\
   Failover.check_health w (Failover.primary_check_url l) (Failover.expected_status l)
     (Failover.timeout_seconds l) h1 = (Ok true, h2)) \/
  (target = Failover.secondary_fqdn l /\
   exists hm,
     Failover.check_health w (Failover.primary_check_url l) (Failover.expected_status l)
       (Failover.timeout_seconds l) h1 = (Ok false, hm) /\
     Failover.check_health w (Failover.secondary_check_url l) (Failover.expected_status l)
       (Failover.timeout_seconds l) hm = (Ok true, h2)).
Proof.
  unfold Failover.desired_target, bind, ret.
  destruct (Failover.check_health w (Failover.primary_check_url l) _ _ h1)
    as [[[|]|e] hm] eqn:E1.
  - intros H. injection H as <- <-. now left.
  - destruct (Failover.check_health w (Failover.secondary_check_url l) _ _ hm)
      as [[[|]|e] h'] eqn:E2; try discriminate.
    intros H. injection H as <- <-. right. split; [reflexivity|]. now exists hm.
  - discriminate.
Qed.

Lemma desired_target_both_fail (l : Failover.Locals) (h1 h2 h3 : list Request) :
  Failover.check_health w (Failover.primary_check_url l) (Failover.expected_status l)
    (Failover.timeout_seconds l) h1 = (Ok false, h2) ->
  Failover.check_health w (Failover.secondary_check_url l) (Failover.expected_status l)
    (Failover.timeout_seconds l) h2 = (Ok false, h3) ->
  Failover.desired_target w l h1 = (Ok None, h3).
Proof. intros E1 E2. unfold Failover.desired_target, bind. now rewrite E1, E2. Qed.

Lemma run_failover_eq (data : value) (l : Failover.Locals) (zid : value)
  (h h1 : list Request) :
  Failover.prepare w data = Ok l ->
  CloudflareClient.get_zone_id w (Failover.cf l) (Failover.domain l) h = (Ok zid, h1) ->
  Failover.run_failover w data h =
  match Failover.desired_target w l h1 with
  | (Ok (Some target), h2) => Failover.apply_target w l zid target h2
  | (Ok None, h2) => (Ok tt, h2)
  | (Raise e, h2) => (Raise e, h2)
  end.
Proof.
  intros Hp Hz. unfold Failover.run_failover. rewrite Hp, bind_lift.
  rewrite (bind_ok _ _ _ _ _ Hz). unfold bind.
  destruct (Failover.desired_target w l h1) as [[[target|]|e] h2]; reflexivity.
Qed.

(** C4: when the primary check completes with the expected status, the
    desired target is the primary target, the name [fqdn] makes of the
    configured [primary_target]; the secondary URL is not even requested,
    and the run goes on to compare and write with that target. *)
Theorem primary_healthy_desired_primary (data : value) (l : Failover.Locals) (zid : value)
  (h h1 : list Request) (resp : Response) :
  let check :=
    Failover.health_request (Failover.primary_check_url l) (Failover.timeout_seconds l) in
  Failover.prepare w data = Ok l ->
  CloudflareClient.get_zone_id w (Failover.cf l) (Failover.domain l) h = (Ok zid, h1) ->
  http w h1 check = Completed resp ->
  status_code resp = Failover.expected_status l ->
  Failover.desired_target w l h1 = (Ok (Some (Failover.primary_fqdn l)), (h1 ++ [check])%list) /\
  Failover.run_failover w data h =
    Failover.apply_target w l zid (Failover.primary_fqdn l) (h1 ++ [check])%list /\
  exists d primary_target,
    data = VDict d /\
    Py.lookup "primary_target" d = Some primary_target /\
    fqdn (Failover.domain l) primary_target = Ok (Failover.primary_fqdn l).
Proof.
  cbn zeta. intros Hp Hz Hr Hs.
  assert (Hd : Failover.desired_target w l h1 =
               (Ok (Some (Failover.primary_fqdn l)),
                (h1 ++ [Failover.health_request (Failover.primary_check_url l)
                          (Failover.timeout_seconds l)])%list)).
  { unfold Failover.desired_target.
    pose proof (check_health_completed w (Failover.primary_check_url l)
                  (Failover.expected_status l) (Failover.timeout_seconds l) h1 resp Hr) as Hc.
    rewrite (bind_ok _ _ _ _ _ Hc). now rewrite Hs, Z.eqb_refl. }
  split; [exact Hd|]. split.
  - now rewrite (run_failover_eq data l zid h h1 Hp Hz), Hd.
  - destruct (prepare_ok data l Hp)
      as (d & pt & st & es & -> & _ & _ & Hpt & _ & _ & _ & _ & _ & _ & Hf & _).
    now exists d, pt.
Qed.

End FailoverFacts.

Lemma primary_healthy_desired_primary_witness :
  let w := Sample.world 200 500 "failover.example.com" 200 in
  Failover.desired_target w Sample.locals [Sample.zones_request]
  = (Ok (Some "primary.example.com"), [Sample.zones_request; Sample.primary_check]).
Proof.
  cbn zeta.
  destruct (primary_healthy_desired_primary (B := Sample.builtins)
              (Sample.world 200 500 "failover.example.com" 200) Sample.config Sample.locals
              (VStr "z1") [] [Sample.zones_request]
              {| status_code := 200; text := ""; body := Some VNone |})
    as (Hd & _); [reflexivity | reflexivity | reflexivity | reflexivity | exact Hd].
Defined.

Lemma Forall_app_intro {A} (P : A -> Prop) (l1 l2 : list A) :
  Forall P l1 -> Forall P l2 -> Forall P (l1 ++ l2)%list.
Proof. intros F1 F2. apply Forall_app. now split. Qed.

Lemma no_write (l : list Request) :
  Forall (fun q => is_write q = false) l -> ~ Exists (fun q => is_write q = true) l.
Proof.
  intros F E. induction F as [|q l Hq _ IH]; inversion E; subst; [congruence | now apply IH].
Qed.

Section FailoverWrites.
Context {B : Builtins} (w : World).

Lemma apply_target_same (l : Failover.Locals) (zid current : value) (target : string)
  (h2 h3 : list Request) :
  Failover.current_target_info w (Failover.cf l) zid (Failover.router_fqdn l) h2
  = (Ok current, h3) ->
  Py.eq_str current target = true ->
  Failover.apply_target w l zid target h2 = (Ok tt, h3).
Proof.
  intros Hc He. unfold Failover.apply_target.
  rewrite (bind_ok _ _ _ _ _ Hc). now rewrite He.
Qed.

(** C5: after both health checks fail the run ends without a [PUT] or
    [POST]; so does a run that reads from Cloudflare a content equal to
    the desired target.  A run that makes a [PUT] or [POST] has a desired
    target, chosen after a healthy check, and has read a current content
    that differs from it. *)
Theorem failover_writes_only_on_change (data : value) (h : list Request) :
  (forall l zid h1 h2 h3,
     Failover.prepare w data = Ok l ->
     CloudflareClient.get_zone_id w (Failover.cf l) (Failover.domain l) h = (Ok zid, h1) ->
     Failover.check_health w (Failover.primary_check_url l) (Failover.expected_status l)
       (Failover.timeout_seconds l) h1 = (Ok false, h2) ->
     Failover.check_health w (Failover.secondary_check_url l) (Failover.expected_status l)
       (Failover.timeout_seconds l) h2 = (Ok false, h3) ->
     Failover.run_failover w data h = (Ok tt, h3) /\
     exists new, h3 = (h ++ new)%list /\ Forall (fun q => is_write q = false) new) /\
  (forall l zid h1 target h2 current h3,
     Failover.prepare w data = Ok l ->
     CloudflareClient.get_zone_id w (Failover.cf l) (Failover.domain l) h = (Ok zid, h1) ->
     Failover.desired_target w l h1 = (Ok (Some target), h2) ->
     Failover.current_target_info w (Failover.cf l) zid (Failover.router_fqdn l) h2
     = (Ok current, h3) ->
     Py.eq_str current target = true ->
     Failover.run_failover w data h = (Ok tt, h3) /\
     exists new, h3 = (h ++ new)%list /\ Forall (fun q => is_write q = false) new) /\
  (exists new,
     snd (Failover.run_failover w data h) = (h ++ new)%list /\
     (Exists (fun q => is_write q = true) new ->
      exists l zid h1 target h2 current h3,
        Failover.prepare w data = Ok l /\
        CloudflareClient.get_zone_id w (Failover.cf l) (Failover.domain l) h = (Ok zid, h1) /\
        Failover.desired_target w l h1 = (Ok (Some target), h2) /\
        ((target = Failover.primary_fqdn l /\
          Failover.check_health w (Failover.primary_check_url l) (Failover.expected_status l)
            (Failover.timeout_seconds l) h1 = (Ok true, h2)) \/
         (target = Failover.secondary_fqdn l /\
          exists hm,
            Failover.check_health w (Failover.primary_check_url l)
              (Failover.expected_status l) (Failover.timeout_seconds l) h1 = (Ok false, hm) /\
            Failover.check_health w (Failover.secondary_check_url l)
              (Failover.expected_status l) (Failover.timeout_seconds l) hm = (Ok true, h2))) /\
        Failover.current_target_info w (Failover.cf l) zid (Failover.router_fqdn l) h2
        = (Ok current, h3) /\
        Py.eq_str current target = false)).
Proof.
  split; [|split].
  - intros l zid h1 h2 h3 Hp Hz E1 E2.
    rewrite (run_failover_eq w data l zid h h1 Hp Hz).
    rewrite (desired_target_both_fail w l h1 h2 h3 E1 E2). split; [reflexivity|].
    destruct (adds_run _ _ _ _ _ (reads_only_get_zone_id w _ _) Hz) as (n1 & -> & F1).
    destruct (adds_run _ _ _ _ _ (reads_only_check_health w _ _ _) E1) as (n2 & -> & F2).
    destruct (adds_run _ _ _ _ _ (reads_only_check_health w _ _ _) E2) as (n3 & -> & F3).
    exists (n1 ++ n2 ++ n3)%list. rewrite !List.app_assoc. split; [reflexivity|].
    repeat apply Forall_app_intro; assumption.
  - intros l zid h1 target h2 current h3 Hp Hz Hd Hc He.
    rewrite (run_failover_eq w data l zid h h1 Hp Hz), Hd.
    rewrite (apply_target_same l zid current target h2 h3 Hc He). split; [reflexivity|].
    destruct (adds_run _ _ _ _ _ (reads_only_get_zone_id w _ _) Hz) as (n1 & -> & F1).
    destruct (adds_run _ _ _ _ _ (reads_only_desired_target w _) Hd) as (n2 & -> & F2).
    destruct (adds_run _ _ _ _ _ (reads_only_current_target_info w _ _ _) Hc)
      as (n3 & -> & F3).
    exists (n1 ++ n2 ++ n3)%list. rewrite !List.app_assoc. split; [reflexivity|].
    repeat apply Forall_app_intro; assumption.
  - destruct (Failover.prepare w data) as [l|e] eqn:Hp.
    2:{ exists []. unfold Failover.run_failover. rewrite Hp, bind_lift.
        cbn [snd]. rewrite List.app_nil_r. split; [reflexivity|].
        intros E. inversion E. }
    destruct (CloudflareClient.get_zone_id w (Failover.cf l) (Failover.domain l) h)
      as [[zid|e] h1] eqn:Hz.
    2:{ destruct (adds_run _ _ _ _ _ (reads_only_get_zone_id w _ _) Hz) as (n1 & -> & F1).
        exists n1. unfold Failover.run_failover.
        rewrite Hp, bind_lift, (bind_raise _ _ _ _ _ Hz). split; [reflexivity|].
        intros E. now apply no_write in E. }
    destruct (adds_run _ _ _ _ _ (reads_only_get_zone_id w _ _) Hz) as (n1 & E1 & F1).
    rewrite (run_failover_eq w data l zid h h1 Hp Hz).
    destruct (Failover.desired_target w l h1) as [[[target|]|e] h2] eqn:Hd;
      destruct (adds_run _ _ _ _ _ (reads_only_desired_target w _) Hd) as (n2 & E2 & F2).
    2,3: exists (n1 ++ n2)%list; cbn [snd]; subst h1 h2; rewrite List.app_assoc;
         (split; [reflexivity|]); intros E; apply no_write in E; [contradiction|];
         now apply Forall_app_intro.
    unfold Failover.apply_target.
    destruct (Failover.current_target_info w (Failover.cf l) zid (Failover.router_fqdn l) h2)
      as [[current|e] h3] eqn:Hc;
      destruct (adds_run _ _ _ _ _ (reads_only_current_target_info w _ _ _) Hc)
        as (n3 & E3 & F3).
    2:{ exists (n1 ++ n2 ++ n3)%list. rewrite (bind_raise _ _ _ _ _ Hc). cbn [snd].
        subst h1 h2 h3. rewrite !List.app_assoc. split; [reflexivity|].
        intros E. apply no_write in E; [contradiction|].
        repeat apply Forall_app_intro; assumption. }
    rewrite (bind_ok _ _ _ _ _ Hc).
    destruct (Py.eq_str current target) eqn:He.
    + exists (n1 ++ n2 ++ n3)%list. cbn [snd ret].
      subst h1 h2 h3. rewrite !List.app_assoc. split; [reflexivity|].
      intros E. apply no_write in E; [contradiction|].
      repeat apply Forall_app_intro; assumption.
    + destruct (extends_set_router_target w (Failover.cf l) (Failover.desec l)
                  (Failover.domain l) zid (Failover.router_record l) (Failover.router_fqdn l)
                  target 60 h3) as (n4 & E4 & _).
      exists (n1 ++ n2 ++ n3 ++ n4)%list. rewrite E4. split.
      * subst h1 h2 h3. now rewrite !List.app_assoc.
      * intros _. exists l, zid, h1, target, h2, current, h3.
        repeat split; try assumption; try reflexivity.
        now apply desired_target_some.
Qed.

End FailoverWrites.

Lemma failover_writes_only_on_change_witness :
  Failover.run_failover (B := Sample.builtins)
    (Sample.world 503 500 "primary.example.com" 200) Sample.config []
  = (Ok tt, [Sample.zones_request; Sample.primary_check; Sample.secondary_check]).
Proof.
  destruct (failover_writes_only_on_change (B := Sample.builtins)
              (Sample.world 503 500 "primary.example.com" 200) Sample.config [])
    as [Hboth _].
  destruct (Hboth Sample.locals (VStr "z1") [Sample.zones_request]
              [Sample.zones_request; Sample.primary_check]
              [Sample.zones_request; Sample.primary_check; Sample.secondary_check])
    as [Hrun _]; [reflexivity | reflexivity | reflexivity | reflexivity | exact Hrun].
Defined.

(** ** The worked example *)

Section Example.
Context {B : Builtins} (w : World).
Variables (zid rid : value) (zone record : list (string * value)).
Variables (more_zones more_records : list value).
Variables (zones_body records_body : list (string * value)).
Variables (zones_resp primary_resp secondary_resp records_resp update_resp : Response).

(** Both tokens are set. *)
Hypothesis cf_token_set : environ w "CF_API_TOKEN" = Some "cf-token".
Hypothesis desec_token_set : environ w "DESEC_API_TOKEN" = Some "desec-token".

(** Cloudflare knows the zone. *)
Hypothesis zones_answer :
  (forall h, http w h Sample.zones_request = Completed zones_resp) /\
  status_code zones_resp = 200%Z /\
  body zones_resp = Some (VDict zones_body) /\
  Py.lookup "result" zones_body = Some (VList (VDict zone :: more_zones)) /\
  Py.lookup "id" zone = Some zid.

(** The primary front answers 503, the secondary 200. *)
Hypothesis primary_answer :
  (forall h, http w h Sample.primary_check = Completed primary_resp) /\
  status_code primary_resp = 503%Z.
Hypothesis secondary_answer :
  (forall h, http w h Sample.secondary_check = Completed secondary_resp) /\
  status_code secondary_resp = 200%Z.

(** Cloudflare holds the router record, pointing to the primary. *)
Hypothesis records_answer :
  (forall h, http w h (Sample.records_request zid) = Completed records_resp) /\
  status_code records_resp = 200%Z /\
  body records_resp = Some (VDict records_body) /\
  Py.lookup "result" records_body = Some (VList (VDict record :: more_records)) /\
  Py.lookup "id" record = Some rid /\
  Py.lookup "content" record = Some (VStr "primary.example.com").

(** Cloudflare accepts the update. *)
Hypothesis update_answer :
  (forall h, http w h (Sample.update_request zid rid "failover.example.com")
             = Completed update_resp) /\
  (status_code update_resp = 200%Z \/ status_code update_resp = 201%Z).









End Example.


(** * Further properties *)

(** ** Names *)

Section MoreNames.
Import Str.

Lemma slice_to_neg_suffix (f suffix : string) :
  suffix <> "" -> endswith f suffix = true ->
  slice_to_neg f (String.length suffix) ++ suffix = f.
Proof.
  intros Hne H. apply endswith_spec in H. destruct H as [p ->].
  now rewrite slice_to_neg_app.
Qed.

(** X1: whatever the types of the two arguments, a name returned by [fqdn]
    has no trailing dot, unless the domain is the empty text or text that
    ends with a dot. *)
Theorem fqdn_no_trailing_dot (domain name : value) (f : string) :
  (forall d, domain = VStr d -> d <> "" /\ endswith d "." = false) ->
  fqdn domain name = Ok f ->
  endswith f "." = false.
Proof.
  intros Hdom. unfold fqdn. destruct name as [| | | |n| |]; try discriminate.
  destruct (endswith n ".") eqn:Hdot.
  - intros H. injection H as <-. apply rstrip_no_trailing_dot.
  - destruct (Py.eq_str domain n); [intros H; now injection H as <-|].
    destruct domain as [| | | |d| |]; try discriminate.
    destruct (endswith n ("." ++ d)); intros H; injection H as <-; [exact Hdot|].
    destruct (Hdom d eq_refl) as [Hne Hd]. now apply qualified_no_trailing_dot.
Qed.

Lemma fqdn_no_trailing_dot_witness :
  fqdn (VStr "example.com") (VStr "www.example.com...") = Ok "www.example.com" /\
  endswith "www.example.com" "." = false.
Proof.
  split; [reflexivity|].
  apply (fqdn_no_trailing_dot (VStr "example.com") (VStr "www.example.com...")).
  - intros d H. injection H as <-. split; [discriminate | reflexivity].
  - reflexivity.
Defined.

(** X2: a subname can be put back together: when [subname] returns [s],
    either [s] is "@" and the fully qualified name is the domain, or the
    fully qualified name is [s], a dot and the domain. *)
Theorem subname_rebuilds_fqdn (r : DnsRecordConfig.t) (s : string) :
  DnsRecordConfig.subname r = Ok s ->
  exists f d,
    DnsRecordConfig.fqdn r = Ok f /\
    DnsRecordConfig.domain r = VStr d /\
    ((s = "@" /\ f = d) \/ (f <> d /\ f = s ++ "." ++ d)).
Proof.
  unfold DnsRecordConfig.subname.
  destruct (DnsRecordConfig.fqdn r) as [f|]; [|discriminate]. cbn [rbind].
  destruct (DnsRecordConfig.domain r) as [| | | |d| |]; try discriminate.
  cbn [Py.eq_str]. destruct (String.eqb_spec d f) as [->|Hne].
  - intros H. injection H as <-. exists f, f. repeat split. now left.
  - destruct (endswith f ("." ++ d)) eqn:Hsuf; [|discriminate].
    intros H. injection H as <-. exists f, d. repeat split. right.
    split; [congruence|]. symmetry. apply (slice_to_neg_suffix f ("." ++ d)); [discriminate|].
    exact Hsuf.
Qed.

Lemma subname_rebuilds_fqdn_witness :
  exists f d,
    DnsRecordConfig.fqdn
      (DnsRecordConfig.Build (VStr "example.com") (VStr "a.b.example.com.") "A" 300
         ["192.0.2.1"]) = Ok f /\
    VStr "example.com" = VStr d /\
    (("a.b" = "@" /\ f = d) \/ (f <> d /\ f = "a.b" ++ "." ++ d)).
Proof.
  apply (subname_rebuilds_fqdn
           (DnsRecordConfig.Build (VStr "example.com") (VStr "a.b.example.com.") "A" 300
              ["192.0.2.1"]) "a.b").
  reflexivity.
Defined.

End MoreNames.

(** ** Configuration files *)

Section MoreLoader.
Context {B : Builtins}.

Lemma check_required_ok (keys : list string) (d : list (string * value)) :
  check_required keys d = Ok tt <-> Forall (fun k => Py.lookup k d <> None) keys.
Proof.
  induction keys as [|k keys IH]; cbn [check_required].
  - split; [constructor | reflexivity].
  - destruct (Py.lookup k d) as [v|] eqn:E.
    + rewrite IH. split.
      * intros H. constructor; [congruence | exact H].
      * intros H. now inversion H.
    + split; [discriminate|]. intros H. inversion H. congruence.
Qed.

Lemma check_required_raises (keys : list string) (d : list (string * value)) (e : exn) :
  check_required keys d = Raise e -> e = ConfigError.
Proof.
  induction keys as [|k keys IH]; cbn [check_required]; [discriminate|].
  destruct (Py.lookup k d); [exact IH | congruence].
Qed.

Lemma lookup_setdefault (k k' : string) (v : value) (d : list (string * value)) :
  Py.lookup k (setdefault d k' v) =
  match Py.lookup k d with
  | Some x => Some x
  | None => if String.eqb k k' then Some v else None
  end.
Proof.
  unfold setdefault. destruct (Py.lookup k' d) as [x|] eqn:E.
  - destruct (Py.lookup k d) eqn:Ek; [reflexivity|].
    destruct (String.eqb_spec k k') as [->|]; [congruence | reflexivity].
  - rewrite lookup_app. destruct (Py.lookup k d); [reflexivity|].
    cbn. now destruct (String.eqb k k').
Qed.

(** X3: [load_failover_config] returns exactly for a mapping that has the
    seven required keys; every key keeps its value, and
    [timeout_seconds] is 5 when the file does not set it.  Any other data
    is rejected with a configuration error. *)
Theorem load_failover_config_spec (data : value) :
  (forall cfg,
     load_failover_config data = Ok cfg <->
     exists d,
       data = VDict d /\
       Forall (fun k => Py.lookup k d <> None) required_keys /\
       cfg = setdefault d "timeout_seconds" (VInt 5)) /\
  (forall cfg d k,
     load_failover_config data = Ok cfg -> data = VDict d ->
     Py.lookup k cfg =
     match Py.lookup k d with
     | Some x => Some x
     | None => if String.eqb k "timeout_seconds" then Some (VInt 5) else None
     end) /\
  (forall e, load_failover_config data = Raise e -> e = ConfigError).
Proof.
  unfold load_failover_config. destruct data as [| | | | | |d].
  1-6: (split; [|split]; [intros cfg; split; [discriminate | intros (d & H & _); discriminate]
                         | discriminate | congruence]).
  destruct (check_required required_keys d) as [[]|e0] eqn:E; cbn [rbind].
  - apply check_required_ok in E. split; [|split].
    + intros cfg. split.
      * intros H. injection H as <-. now exists d.
      * intros (d' & H & _ & ->). now injection H as <-.
    + intros cfg d' k H Hd. injection H as <-. injection Hd as <-.
      apply lookup_setdefault.
    + discriminate.
  - split; [|split].
    + intros cfg. split; [discriminate|].
      intros (d' & H & Hall & _). injection H as <-.
      apply check_required_ok in Hall. congruence.
    + discriminate.
    + intros e H. injection H as <-. now apply check_required_raises in E.
Qed.

Lemma load_failover_config_spec_witness :
  Py.lookup "timeout_seconds"
    (setdefault
       [("domain", VStr "example.com"); ("router_record", VStr "www");
        ("primary_target", VStr "primary"); ("secondary_target", VStr "failover");
        ("primary_check_url", VStr "https://primary.example.com/health");
        ("secondary_check_url", VStr "https://failover.example.com/health");
        ("expected_status", VInt 200)]
       "timeout_seconds" (VInt 5))
  = Some (VInt 5).
Proof.
  destruct (load_failover_config_spec Sample.config) as (_ & Hkeys & _).
  apply (Hkeys _ _ "timeout_seconds" eq_refl eq_refl).
Defined.

(** X4: the acceptance test of one entry of [records], on the values of
    the fragment.  An entry is accepted exactly when it is a mapping, [int]
    accepts its ttl (300 when absent), its name is truthy, the upper-cased
    [str] of its type is not empty, and its values have length one with a
    first element; the record stored is then made of these. *)
Theorem load_record_accepts_iff (domain item : value) (r : DnsRecordConfig.t) :
  load_record domain item = Ok r <->
  exists d v ttl,
    item = VDict d /\
    Py.int (Py.dict_get d "ttl" (VInt 300)) = Ok ttl /\
    Py.truthy (Py.dict_get d "name" VNone) = true /\
    str_upper (Py.str (Py.dict_get d "type" (VStr ""))) <> "" /\
    Py.len (entry_values d) = Ok 1 /\
    Py.first (entry_values d) = Ok v /\
    r = DnsRecordConfig.Build domain (Py.dict_get d "name" VNone)
          (str_upper (Py.str (Py.dict_get d "type" (VStr "")))) ttl [Py.str v].
Proof.
  split.
  - unfold load_record. destruct item as [| | | | | |d]; try discriminate.
    destruct (Py.int _) as [ttl|] eqn:Ettl; [|discriminate]. cbn [rbind].
    destruct (Py.truthy (Py.dict_get d "name" VNone)) eqn:Ename; [|discriminate].
    cbn [negb orb Py.truthy].
    destruct (String.eqb_spec (str_upper (Py.str (Py.dict_get d "type" (VStr "")))) "")
      as [|Ntype]; [discriminate|]. cbn [negb orb].
    destruct (negb (Py.truthy (entry_values d))); [discriminate|].
    destruct (Py.len _) as [n|] eqn:Elen; [|discriminate]. cbn [rbind].
    destruct (Nat.eqb_spec n 1) as [->|]; [|discriminate]. cbn [negb].
    destruct (Py.first _) as [v|] eqn:Efirst; [|discriminate]. cbn [rbind].
    intros H. injection H as <-. exists d, v, ttl. repeat split; assumption.
  - intros (d & v & ttl & -> & Httl & Hname & Htype & Hlen & Hfirst & ->).
    unfold load_record. rewrite Httl. cbn [rbind]. rewrite Hname. cbn [negb orb Py.truthy].
    apply String.eqb_neq in Htype. rewrite Htype. cbn [negb orb].
    assert (Ht : Py.truthy (entry_values d) = true).
    { destruct (entry_values d) as [| | | |s|l|l]; cbn in Hlen; try discriminate.
      - destruct s; [cbn in Hlen; discriminate | reflexivity].
      - destruct l; [cbn in Hlen; discriminate | reflexivity]. }
    rewrite Ht, Hlen. cbn [negb rbind Nat.eqb]. now rewrite Hfirst.
Qed.

End MoreLoader.

Lemma load_record_accepts_iff_witness :
  load_record (B := Sample.builtins) (VStr "example.com")
    (VDict [("name", VStr "www"); ("type", VStr "cname"); ("ttl", VStr "120");
            ("values", VList [VInt 7])])
  = Ok (DnsRecordConfig.Build (VStr "example.com") (VStr "www") "CNAME" 120 ["7"]).
Proof.
  apply (load_record_accepts_iff (B := Sample.builtins) (VStr "example.com")).
  eexists _, (VInt 7), 120%Z. repeat split; try reflexivity. discriminate.
Defined.

(** ** Provider clients, continued *)

Section MoreClients.
Context {B : Builtins} (w : World).

Lemma get_dns_record_eq (cf : CloudflareClient.t) (zone_id : value) (name rtype : string)
  (h : list Request) :
  CloudflareClient.get_dns_record w cf zone_id name rtype h =
  (match http w h (CloudflareClient.lookup_request cf zone_id name rtype) with
   | Completed resp =>
       if negb (Z.eqb (status_code resp) 200) then Raise ProviderError
       else
         (result <- json resp ;;
          r <- Py.get result "result" ;;
          if negb (Py.truthy (Py.or_else r (VList []))) then Ok VNone
          else Py.first (Py.or_else r (VList [])))%result
   | Fails e => Raise e
   end, (h ++ [CloudflareClient.lookup_request cf zone_id name rtype])%list).
Proof.
  unfold CloudflareClient.get_dns_record, CloudflareClient.lookup_request, bind, send.
  destruct (http w h _) as [resp|e]; [|reflexivity].
  destruct (negb _); [reflexivity|].
  unfold lift. destruct (json resp) as [result|]; [|reflexivity]. cbn [rbind].
  destruct (Py.get result "result") as [r|]; [|reflexivity]. cbn [rbind].
  now destruct (negb _).
Qed.

(** X5: [get_dns_record] sends one [GET] and nothing else.  Answered with
    a status other than 200 it raises a provider error; answered with 200
    and no record it returns [None], not an error; answered with 200 and
    records it returns the first. *)
Theorem get_dns_record_spec (cf : CloudflareClient.t) (zone_id : value) (name rtype : string)
  (h : list Request) :
  let req := CloudflareClient.lookup_request cf zone_id name rtype in
  let run := CloudflareClient.get_dns_record w cf zone_id name rtype h in
  snd run = (h ++ [req])%list /\
  meth req = GET /\
  (forall resp,
     http w h req = Completed resp ->
     (status_code resp <> 200%Z -> fst run = Raise ProviderError) /\
     (forall top,
        status_code resp = 200%Z -> body resp = Some (VDict top) ->
        Py.truthy (Py.dict_get top "result" VNone) = false ->
        fst run = Ok VNone) /\
     (forall top record more,
        status_code resp = 200%Z -> body resp = Some (VDict top) ->
        Py.dict_get top "result" VNone = VList (record :: more) ->
        fst run = Ok record)).
Proof.
  cbn zeta. rewrite get_dns_record_eq. cbn [fst snd].
  split; [reflexivity|]. split; [reflexivity|].
  intros resp ->. repeat split.
  - intros Hs. apply Z.eqb_neq in Hs. now rewrite Hs.
  - intros top -> Hb Hz. cbn [Z.eqb Pos.eqb negb]. unfold json. rewrite Hb.
    cbn [rbind Py.get]. unfold Py.or_else. now rewrite Hz.
  - intros top record more -> Hb Hz. cbn [Z.eqb Pos.eqb negb]. unfold json. rewrite Hb.
    cbn [rbind Py.get]. now rewrite Hz.
Qed.

(** X6: [upsert_dns_record] looks the record up once and then sends at most
    one write: an update, [PUT] on the path of the id found, when the lookup
    returned a record, and a create, [POST] on the collection, when it
    returned none.  When the lookup raises, or the record found has no id,
    nothing is written. *)
Theorem upsert_update_or_create (cf : CloudflareClient.t) (zone_id : value)
  (name rtype content : string) (ttl : Z) (proxied : option bool) (h : list Request) :
  let lookup := CloudflareClient.lookup_request cf zone_id name rtype in
  let run := CloudflareClient.upsert_dns_record w cf zone_id name rtype content ttl proxied h in
  let payload := Some (CloudflareClient.record_payload name rtype content ttl proxied) in
  (forall e h1,
     CloudflareClient.get_dns_record w cf zone_id name rtype h = (Raise e, h1) ->
     run = (Raise e, (h ++ [lookup])%list)) /\
  (forall existing h1,
     CloudflareClient.get_dns_record w cf zone_id name rtype h = (Ok existing, h1) ->
     (Py.truthy existing = false ->
      snd run =
      (h ++ [lookup;
             CloudflareClient.request cf POST ("/zones/" ++ Py.str zone_id ++ "/dns_records")
               [] payload])%list) /\
     (forall record_id,
        Py.truthy existing = true -> Py.getitem existing "id" = Ok record_id ->
        snd run =
        (h ++ [lookup;
               CloudflareClient.request cf PUT
                 ("/zones/" ++ Py.str zone_id ++ "/dns_records/" ++ Py.str record_id)
                 [] payload])%list) /\
     (forall e,
        Py.truthy existing = true -> Py.getitem existing "id" = Raise e ->
        run = (Raise e, (h ++ [lookup])%list))).
Proof.
  cbn zeta. split.
  - intros e h1 Hget. unfold CloudflareClient.upsert_dns_record.
    rewrite (bind_raise _ _ _ _ _ Hget).
    rewrite get_dns_record_eq in Hget. now injection Hget as _ <-.
  - intros existing h1 Hget.
    assert (Hh1 : h1 = (h ++ [CloudflareClient.lookup_request cf zone_id name rtype])%list).
    { rewrite get_dns_record_eq in Hget. now injection Hget as _ <-. }
    repeat split.
    + intros Ht.
      rewrite (upsert_dns_record_eq w cf zone_id name rtype content ttl proxied h h1 existing
                 (CloudflareClient.request cf POST
                    ("/zones/" ++ Py.str zone_id ++ "/dns_records") []
                    (Some (CloudflareClient.record_payload name rtype content ttl proxied)))
                 Hget).
      * cbn [snd]. subst h1. now rewrite <- List.app_assoc.
      * unfold CloudflareClient.write_request. now rewrite Ht.
    + intros record_id Ht Hid.
      rewrite (upsert_dns_record_eq w cf zone_id name rtype content ttl proxied h h1 existing
                 (CloudflareClient.request cf PUT
                    ("/zones/" ++ Py.str zone_id ++ "/dns_records/" ++ Py.str record_id) []
                    (Some (CloudflareClient.record_payload name rtype content ttl proxied)))
                 Hget).
      * cbn [snd]. subst h1. now rewrite <- List.app_assoc.
      * unfold CloudflareClient.write_request. now rewrite Ht, Hid.
    + intros e Ht Hid. unfold CloudflareClient.upsert_dns_record.
      rewrite (bind_ok _ _ _ _ _ Hget), Ht, bind_lift, Hid. now subst h1.
Qed.

End MoreClients.

Lemma get_dns_record_spec_witness :
  fst (CloudflareClient.get_dns_record (B := Sample.builtins) Sample.fresh Sample.cf
         (VStr "z1") "www.example.com" "CNAME" [])
  = Ok VNone.
Proof.
  destruct (get_dns_record_spec (B := Sample.builtins) Sample.fresh Sample.cf (VStr "z1")
              "www.example.com" "CNAME" []) as (_ & _ & Hresp).
  destruct (Hresp {| status_code := 200; text := "";
                     body := Some (VDict [("result", VList [])]) |} eq_refl)
    as (_ & Hnone & _).
  apply (Hnone [("result", VList [])]); reflexivity.
Defined.

Lemma upsert_update_or_create_witness :
  snd (CloudflareClient.upsert_dns_record (B := Sample.builtins) Sample.fresh Sample.cf
         (VStr "z1") "www.example.com" "CNAME" "primary.example.com" 60 None [])
  = [Sample.records_request (B := Sample.builtins) (VStr "z1");
     CloudflareClient.request Sample.cf POST "/zones/z1/dns_records" []
       (Some (VDict [("type", VStr "CNAME"); ("name", VStr "www.example.com");
                     ("content", VStr "primary.example.com"); ("ttl", VInt 60)]))].
Proof.
  destruct (upsert_update_or_create (B := Sample.builtins) Sample.fresh Sample.cf (VStr "z1")
              "www.example.com" "CNAME" "primary.example.com" 60 None []) as (_ & Hok).
  destruct (Hok VNone [Sample.records_request (B := Sample.builtins) (VStr "z1")] eq_refl)
    as (Hcreate & _).
  apply Hcreate. reflexivity.
Defined.

(** ** The failover routine, continued *)

Section MoreFailover.
Context {B : Builtins} (w : World).

Lemma with_trailing_dot_cases (s : string) :
  Str.endswith (Failover.with_trailing_dot s) "." = true /\
  (Failover.with_trailing_dot s = s \/ Failover.with_trailing_dot s = s ++ ".").
Proof.
  unfold Failover.with_trailing_dot. destruct (Str.endswith s ".") eqn:E; cbn [negb].
  - now split; [|left].
  - split; [apply endswith_app | now right].
Qed.

(** X7: [set_router_target] writes to Cloudflare first.  When that upsert
    raises, or the subname cannot be derived, deSEC is not contacted.
    Otherwise deSEC receives one [PUT] of the RRset with a single value,
    which ends with a dot: the target itself when the target ends with a
    dot, and the target followed by one dot when it does not. *)
Theorem set_router_target_order (cf : CloudflareClient.t) (desec : DeSecClient.t)
  (zone_name zone_id router_name : value) (router_fqdn target : string) (ttl : Z)
  (h : list Request) :
  let upsert :=
    CloudflareClient.upsert_dns_record w cf zone_id router_fqdn "CNAME" target ttl None h in
  let rec_cfg :=
    DnsRecordConfig.Build zone_name (VStr router_fqdn) "CNAME" ttl
      [Failover.with_trailing_dot target] in
  let run :=
    Failover.set_router_target w cf desec zone_name zone_id router_name router_fqdn target
      ttl h in
  (forall e h1, upsert = (Raise e, h1) -> run = (Raise e, h1)) /\
  (forall h1,
     upsert = (Ok tt, h1) ->
     (forall e, DnsRecordConfig.subname rec_cfg = Raise e -> run = (Raise e, h1)) /\
     (forall subname,
        DnsRecordConfig.subname rec_cfg = Ok subname ->
        exists v,
          snd run =
          (h1 ++ [DeSecClient.request desec PUT
                    ("/domains/" ++ Py.str zone_name ++ "/rrsets/" ++ subname ++ "/CNAME/")
                    (Some (DeSecClient.rrset_payload subname "CNAME" ttl [v]))])%list /\
          Str.endswith v "." = true /\
          (Str.endswith target "." = true -> v = target) /\
          (Str.endswith target "." = false -> v = target ++ "."))).
Proof.
  cbn zeta. unfold Failover.set_router_target. split.
  - intros e h1 Hup. now rewrite (bind_raise _ _ _ _ _ Hup).
  - intros h1 Hup. rewrite (bind_ok _ _ _ _ _ Hup). split.
    + intros e Hsub. now rewrite bind_lift, Hsub.
    + intros subname Hsub. rewrite bind_lift, Hsub.
      exists (Failover.with_trailing_dot target).
      rewrite upsert_rrset_eq. cbn zeta. cbn [snd DnsRecordConfig.values].
      split; [reflexivity|]. split; [apply with_trailing_dot_cases|].
      unfold Failover.with_trailing_dot.
      split; intros ->; reflexivity.
Qed.

(** X8: when the primary check is unhealthy, by a status other than the
    expected one or by a request error, and the secondary check completes
    with the expected status, the desired target is the secondary
    target. *)
Theorem primary_unhealthy_desired_secondary (l : Failover.Locals) (h : list Request)
  (resp : Response) :
  let primary :=
    Failover.health_request (Failover.primary_check_url l) (Failover.timeout_seconds l) in
  let secondary :=
    Failover.health_request (Failover.secondary_check_url l) (Failover.timeout_seconds l) in
  (exists resp1,
     http w h primary = Completed resp1 /\ status_code resp1 <> Failover.expected_status l) \/
  (exists e, http w h primary = Fails (Httpx e) /\ is_RequestError e = true) ->
  http w (h ++ [primary])%list secondary = Completed resp ->
  status_code resp = Failover.expected_status l ->
  Failover.desired_target w l h
  = (Ok (Some (Failover.secondary_fqdn l)), (h ++ [primary; secondary])%list).
Proof.
  cbn zeta. intros Hprimary Hsecondary Hstatus.
  assert (H1 : Failover.check_health w (Failover.primary_check_url l)
                 (Failover.expected_status l) (Failover.timeout_seconds l) h
               = (Ok false,
                  (h ++ [Failover.health_request (Failover.primary_check_url l)
                           (Failover.timeout_seconds l)])%list)).
  { destruct Hprimary as [(resp1 & Hr & Hs) | (e & Hr & He)].
    - rewrite (check_health_completed w _ _ _ h resp1 Hr).
      apply Z.eqb_neq in Hs. now rewrite Hs.
    - unfold Failover.check_health, try_except, bind, send. rewrite Hr. cbn. now rewrite He. }
  unfold Failover.desired_target.
  rewrite (bind_ok _ _ _ _ _ H1).
  rewrite (bind_ok _ _ _ _ _ (check_health_completed w _ _ _ _ resp Hsecondary)).
  rewrite Hstatus, Z.eqb_refl. cbn [ret]. now rewrite <- List.app_assoc.
Qed.

Lemma get_env_or_raise_ok (key val : string) :
  get_env_or_raise w key = Ok val -> environ w key = Some val /\ val <> "".
Proof.
  unfold get_env_or_raise. destruct (environ w key) as [v|]; [|discriminate].
  destruct (String.eqb_spec v ""); [discriminate|].
  intros H. injection H as <-. now split.
Qed.

Lemma prepare_tokens (data : value) (l : Failover.Locals) :
  Failover.prepare w data = Ok l ->
  exists cf_token desec_token,
    environ w "CF_API_TOKEN" = Some cf_token /\ cf_token <> "" /\
    environ w "DESEC_API_TOKEN" = Some desec_token /\ desec_token <> "" /\
    Failover.cf l = CloudflareClient.init cf_token /\
    Failover.desec l = DeSecClient.init desec_token.
Proof.
  unfold Failover.prepare. intros H.
  repeat match type of H with
         | rbind ?r _ = Ok _ => destruct r eqn:?; cbn [rbind] in H; [|discriminate]
         end.
  injection H as <-. cbn.
  repeat match goal with
         | E : get_env_or_raise w _ = Ok _ |- _ => apply get_env_or_raise_ok in E; destruct E
         end.
  eexists _, _. repeat split; eassumption.
Qed.

(** X9: a failover run sends no request before its configuration is
    complete.  A request is sent only when the file is a mapping with the
    seven required keys and both tokens are set and not empty; otherwise
    the run raises at once, and [main] sends nothing either. *)
Theorem run_failover_needs_setup (data : value) (h : list Request) :
  (forall new,
     snd (Failover.run_failover w data h) = (h ++ new)%list -> new <> [] ->
     exists d cf_token desec_token,
       data = VDict d /\
       Forall (fun k => Py.lookup k d <> None) required_keys /\
       environ w "CF_API_TOKEN" = Some cf_token /\ cf_token <> "" /\
       environ w "DESEC_API_TOKEN" = Some desec_token /\ desec_token <> "") /\
  (forall e,
     Failover.prepare w data = Raise e ->
     Failover.run_failover w data h = (Raise e, h) /\
     snd (Failover.main w data h) = h).
Proof.
  split.
  - intros new Hnew Hne.
    destruct (Failover.prepare w data) as [l|e] eqn:Hp.
    + destruct (prepare_tokens data l Hp) as (t1 & t2 & H1 & H2 & H3 & H4 & _).
      unfold Failover.prepare in Hp.
      destruct (load_failover_config data) as [cfg|] eqn:Hcfg; [|discriminate].
      unfold load_failover_config in Hcfg. destruct data as [| | | | | |d]; try discriminate.
      destruct (check_required required_keys d) as [[]|] eqn:Hreq; [|discriminate].
      apply check_required_ok in Hreq.
      exists d, t1, t2. repeat split; assumption.
    + unfold Failover.run_failover in Hnew. rewrite Hp, bind_lift in Hnew. cbn [snd] in Hnew.
      rewrite <- (List.app_nil_r h) in Hnew at 1. apply List.app_inv_head in Hnew.
      congruence.
  - intros e Hp.
    assert (Hrun : Failover.run_failover w data h = (Raise e, h)).
    { unfold Failover.run_failover. now rewrite Hp, bind_lift. }
    split; [exact Hrun|].
    unfold Failover.main, try_except. rewrite (bind_raise _ _ _ _ _ Hrun).
    now destruct (Failover.catches_known_errors e).
Qed.

End MoreFailover.

Lemma set_router_target_order_witness :
  exists v,
    snd (Failover.set_router_target (B := Sample.builtins)
           (Sample.world 503 200 "primary.example.com" 200) Sample.cf Sample.desec
           (VStr "example.com") (VStr "z1") (VStr "www") "www.example.com"
           "failover.example.com" 60 [])
    = ([Sample.records_request (B := Sample.builtins) (VStr "z1");
        Sample.update_request (B := Sample.builtins) (VStr "z1") (VStr "r1")
          "failover.example.com"] ++
       [DeSecClient.request Sample.desec PUT "/domains/example.com/rrsets/www/CNAME/"
          (Some (DeSecClient.rrset_payload "www" "CNAME" 60 [v]))])%list /\
    Str.endswith v "." = true /\
    (Str.endswith "failover.example.com" "." = true -> v = "failover.example.com") /\
    (Str.endswith "failover.example.com" "." = false -> v = "failover.example.com" ++ ".").
Proof.
  destruct (set_router_target_order (B := Sample.builtins)
              (Sample.world 503 200 "primary.example.com" 200) Sample.cf Sample.desec
              (VStr "example.com") (VStr "z1") (VStr "www") "www.example.com"
              "failover.example.com" 60 []) as (_ & Hok).
  destruct (Hok [Sample.records_request (B := Sample.builtins) (VStr "z1");
                 Sample.update_request (B := Sample.builtins) (VStr "z1") (VStr "r1")
                   "failover.example.com"] eq_refl) as (_ & Hsub).
  apply (Hsub "www" eq_refl).
Defined.

Lemma primary_unhealthy_desired_secondary_witness :
  Failover.desired_target (Sample.world 503 200 "primary.example.com" 200) Sample.locals []
  = (Ok (Some "failover.example.com"), [Sample.primary_check; Sample.secondary_check]).
Proof.
  apply (primary_unhealthy_desired_secondary
           (Sample.world 503 200 "primary.example.com" 200) Sample.locals []
           {| status_code := 200; text := ""; body := Some VNone |}).
  - left. eexists. split; [reflexivity | discriminate].
  - reflexivity.
  - reflexivity.
Defined.

Lemma run_failover_needs_setup_witness :
  Failover.run_failover (B := Sample.builtins) Sample.two_zones Sample.config []
  = (Raise ConfigError, []) /\
  snd (Failover.main (B := Sample.builtins) Sample.two_zones Sample.config []) = [].
Proof.
  destruct (run_failover_needs_setup (B := Sample.builtins) Sample.two_zones Sample.config [])
    as (_ & Hraise).
  apply (Hraise ConfigError). reflexivity.
Defined.

(** ** The synchronisation routine *)

Section MoreSync.
Context {B : Builtins} (w : World).

Lemma sync_records_cons (cf : CloudflareClient.t) (desec : DeSecClient.t) (zone_id : value)
  (rec : DnsRecordConfig.t) (rest : list DnsRecordConfig.t) (h : list Request) :
  SyncDns.sync_records w cf desec zone_id (rec :: rest) h =
  match SyncDns.sync_record w cf desec zone_id rec h with
  | (Ok _, h1) => SyncDns.sync_records w cf desec zone_id rest h1
  | (Raise e, h1) => (Raise e, h1)
  end.
Proof. reflexivity. Qed.

(** X10: the loop of [sync_zone] stops at the first record that raises:
    the records after it are not processed, whatever they are. *)
Theorem sync_stops_at_first_failure (cf : CloudflareClient.t) (desec : DeSecClient.t)
  (zone_id : value) (pre post : list DnsRecordConfig.t) (rec : DnsRecordConfig.t)
  (h h1 h2 : list Request) (e : exn) :
  SyncDns.sync_records w cf desec zone_id pre h = (Ok tt, h1) ->
  SyncDns.sync_record w cf desec zone_id rec h1 = (Raise e, h2) ->
  SyncDns.sync_records w cf desec zone_id (pre ++ rec :: post)%list h = (Raise e, h2).
Proof.
  revert h. induction pre as [|a pre IH]; intros h Hpre Hrec.
  - cbn in Hpre. injection Hpre as <-. cbn [List.app].
    now rewrite sync_records_cons, Hrec.
  - cbn [List.app]. rewrite sync_records_cons in *.
    destruct (SyncDns.sync_record w cf desec zone_id a h) as [[[]|e'] h'];
      [now apply IH | discriminate].
Qed.

Lemma upsert_dns_record_ok_adds (cf : CloudflareClient.t) (zone_id : value)
  (name rtype content : string) (ttl : Z) (proxied : option bool) (h h' : list Request) :
  CloudflareClient.upsert_dns_record w cf zone_id name rtype content ttl proxied h
  = (Ok tt, h') ->
  exists q,
    h' = (h ++ [CloudflareClient.lookup_request cf zone_id name rtype; q])%list /\
    is_write q = true.
Proof.
  unfold CloudflareClient.upsert_dns_record, bind. rewrite get_dns_record_eq.
  destruct (match http w h _ with Completed _ => _ | Fails _ => _ end) as [existing|];
    [|discriminate].
  destruct (Py.truthy existing).
  - unfold lift. destruct (Py.getitem existing "id") as [rid|]; [|discriminate].
    unfold send. destruct (http w _ _) as [resp|]; [|discriminate].
    destruct (not_200_201 _); [discriminate|]. cbn [ret].
    intros H. injection H as <-. eexists. rewrite <- List.app_assoc.
    split; reflexivity.
  - unfold send. destruct (http w _ _) as [resp|]; [|discriminate].
    destruct (not_200_201 _); [discriminate|]. cbn [ret].
    intros H. injection H as <-. eexists. rewrite <- List.app_assoc.
    split; reflexivity.
Qed.

Lemma sync_record_ok_adds (cf : CloudflareClient.t) (desec : DeSecClient.t) (zone_id : value)
  (rec : DnsRecordConfig.t) (h h' : list Request) :
  SyncDns.sync_record w cf desec zone_id rec h = (Ok tt, h') ->
  exists q1 q2 q3,
    h' = (h ++ [q1; q2; q3])%list /\
    is_write q1 = false /\ is_write q2 = true /\ is_write q3 = true.
Proof.
  unfold SyncDns.sync_record. rewrite bind_lift.
  destruct (DnsRecordConfig.fqdn rec) as [f|]; [|discriminate].
  rewrite bind_lift. destruct (SyncDns.first_value _) as [v|]; [|discriminate].
  unfold bind at 1.
  destruct (CloudflareClient.upsert_dns_record w cf zone_id f _ v _ None h)
    as [[[]|] h1] eqn:Hup; [|discriminate].
  apply upsert_dns_record_ok_adds in Hup. destruct Hup as (q & -> & Hq).
  rewrite bind_lift. destruct (DnsRecordConfig.subname rec) as [s|]; [|discriminate].
  rewrite upsert_rrset_eq. cbn zeta.
  destruct (http w _ _) as [resp|]; [|discriminate].
  destruct (not_200_201 _); [discriminate|].
  intros H. injection H as <-. eexists _, q, _. rewrite <- List.app_assoc.
  repeat split; try reflexivity; exact Hq.
Qed.

Lemma sync_records_ok_count (cf : CloudflareClient.t) (desec : DeSecClient.t)
  (zone_id : value) (records : list DnsRecordConfig.t) (h h' : list Request) :
  SyncDns.sync_records w cf desec zone_id records h = (Ok tt, h') ->
  exists new,
    h' = (h ++ new)%list /\
    List.length new = 3 * List.length records /\
    List.length (filter is_write new) = 2 * List.length records.
Proof.
  revert h. induction records as [|rec records IH]; intros h.
  - cbn. intros H. injection H as <-. exists []. now rewrite List.app_nil_r.
  - rewrite sync_records_cons.
    destruct (SyncDns.sync_record w cf desec zone_id rec h) as [[[]|] h1] eqn:Hrec;
      [|discriminate].
    apply sync_record_ok_adds in Hrec. destruct Hrec as (q1 & q2 & q3 & -> & H1 & H2 & H3).
    intros Hrest. destruct (IH _ Hrest) as (new & -> & Hlen & Hw).
    exists ([q1; q2; q3] ++ new)%list. rewrite List.app_assoc. split; [reflexivity|].
    split.
    + rewrite List.length_app, Hlen. cbn [List.length]. lia.
    + rewrite List.filter_app, List.length_app, Hw. cbn [filter].
      rewrite H1, H2, H3. cbn [List.length]. lia.
Qed.

End MoreSync.

Section MoreSyncZone.
Context {B : Builtins} (w : World).

(** X11: a record whose subname cannot be derived, such as an absolute name
    outside the domain, is rejected only after Cloudflare has been written:
    the step ends with the exception of [subname], the lookup and the write
    to Cloudflare made, and deSEC not contacted. *)
Theorem sync_record_writes_before_rejecting (cf : CloudflareClient.t) (desec : DeSecClient.t)
  (zone_id : value) (rec : DnsRecordConfig.t) (f v : string) (h h1 : list Request)
  (e : exn) :
  DnsRecordConfig.fqdn rec = Ok f ->
  SyncDns.first_value (DnsRecordConfig.values rec) = Ok v ->
  CloudflareClient.upsert_dns_record w cf zone_id f (DnsRecordConfig.type rec) v
    (DnsRecordConfig.ttl rec) None h = (Ok tt, h1) ->
  DnsRecordConfig.subname rec = Raise e ->
  SyncDns.sync_record w cf desec zone_id rec h = (Raise e, h1) /\
  exists q,
    h1 = (h ++ [CloudflareClient.lookup_request cf zone_id f (DnsRecordConfig.type rec); q])%list /\
    is_write q = true.
Proof.
  intros Hf Hv Hup Hsub. split.
  - unfold SyncDns.sync_record.
    rewrite bind_lift, Hf, bind_lift, Hv, (bind_ok _ _ _ _ _ Hup), bind_lift, Hsub.
    reflexivity.
  - now apply (upsert_dns_record_ok_adds w) in Hup.
Qed.

Lemma get_zone_id_trace (cf : CloudflareClient.t) (zone_name : value) (h : list Request) :
  snd (CloudflareClient.get_zone_id w cf zone_name h)
  = (h ++ [CloudflareClient.request cf GET "/zones" [("name", zone_name)] None])%list.
Proof.
  unfold CloudflareClient.get_zone_id, bind, send, lift.
  destruct (http w h _) as [resp|e]; [|reflexivity].
  destruct (negb _); [reflexivity|].
  destruct (json resp) as [result|]; [|reflexivity].
  destruct (Py.get result "result") as [r|]; [|reflexivity].
  destruct (negb _); [reflexivity|].
  now destruct (Py.first _).
Qed.

(** X12: a synchronisation that returns has loaded the file and has sent
    one zone lookup and, for every record of the file, one record lookup,
    one write to Cloudflare and one write to deSEC: with [n] records,
    [1 + 3 n] requests of which [2 n] are writes. *)
Theorem sync_zone_ok_count (data : value) (h h' : list Request) :
  SyncDns.sync_zone w data h = (Ok tt, h') ->
  exists domain records new,
    load_zone_config data = Ok (domain, records) /\
    h' = (h ++ new)%list /\
    List.length new = 1 + 3 * List.length records /\
    List.length (filter is_write new) = 2 * List.length records.
Proof.
  unfold SyncDns.sync_zone. rewrite bind_lift.
  destruct (load_zone_config data) as [[domain records]|]; [|discriminate].
  cbn [fst snd].
  rewrite bind_lift. destruct (get_env_or_raise w "CF_API_TOKEN") as [t1|]; [|discriminate].
  rewrite bind_lift. destruct (get_env_or_raise w "DESEC_API_TOKEN") as [t2|]; [|discriminate].
  unfold bind.
  pose proof (get_zone_id_trace (CloudflareClient.init t1) domain h) as Htrace.
  destruct (CloudflareClient.get_zone_id w (CloudflareClient.init t1) domain h)
    as [[zid|] h1]; [|discriminate].
  cbn [snd] in Htrace. subst h1. intros Hrec.
  apply sync_records_ok_count in Hrec. destruct Hrec as (new & -> & Hlen & Hw).
  exists domain, records. eexists (_ :: new). rewrite <- List.app_assoc.
  split; [reflexivity|]. split; [reflexivity|]. cbn [List.length filter List.app].
  split; [lia|]. cbn. lia.
Qed.

(** X13: a synchronisation sends no request before its configuration is
    complete: a request is sent only when the zone file loads and both
    tokens are set and not empty. *)
Theorem sync_zone_needs_setup (data : value) (h new : list Request) :
  snd (SyncDns.sync_zone w data h) = (h ++ new)%list ->
  new <> [] ->
  exists domain records cf_token desec_token,
    load_zone_config data = Ok (domain, records) /\
    environ w "CF_API_TOKEN" = Some cf_token /\ cf_token <> "" /\
    environ w "DESEC_API_TOKEN" = Some desec_token /\ desec_token <> "".
Proof.
  intros Hnew Hne.
  assert (Hnil : forall r : result unit, snd (r, h) = (h ++ new)%list -> False).
  { intros r H. cbn [snd] in H. rewrite <- (List.app_nil_r h) in H at 1.
    apply List.app_inv_head in H. congruence. }
  unfold SyncDns.sync_zone in Hnew. rewrite bind_lift in Hnew.
  destruct (load_zone_config data) as [[domain records]|]; [|now apply Hnil in Hnew].
  rewrite bind_lift in Hnew.
  destruct (get_env_or_raise w "CF_API_TOKEN") as [t1|] eqn:H1; [|now apply Hnil in Hnew].
  rewrite bind_lift in Hnew.
  destruct (get_env_or_raise w "DESEC_API_TOKEN") as [t2|] eqn:H2; [|now apply Hnil in Hnew].
  apply get_env_or_raise_ok in H1, H2. destruct H1, H2.
  exists domain, records, t1, t2. repeat split; assumption.
Qed.

Lemma exit_code (run : M unit) (h : list Request) :
  try_except (run ;; ret 0%Z)%io Failover.catches_known_errors (ret 1%Z) h =
  (match fst (run h) with
   | Ok _ => Ok 0%Z
   | Raise ConfigError | Raise ProviderError => Ok 1%Z
   | Raise e => Raise e
   end, snd (run h)).
Proof.
  unfold try_except, bind, ret. destruct (run h) as [[[]|e] h1]; [reflexivity|].
  now destruct e.
Qed.

(** The exit code of the two commands.  [main] sends what the run
    sends; it returns 0 when the run returns, 1 when the run raises a
    configuration or a provider error, and lets every other exception
    through. *)
Theorem main_exit_codes (data : value) (h : list Request) :
  Failover.main w data h =
  (match fst (Failover.run_failover w data h) with
   | Ok _ => Ok 0%Z
   | Raise ConfigError | Raise ProviderError => Ok 1%Z
   | Raise e => Raise e
   end, snd (Failover.run_failover w data h)) /\
  SyncDns.main w data h =
  (match fst (SyncDns.sync_zone w data h) with
   | Ok _ => Ok 0%Z
   | Raise ConfigError | Raise ProviderError => Ok 1%Z
   | Raise e => Raise e
   end, snd (SyncDns.sync_zone w data h)).
Proof. split; apply exit_code. Qed.

(** X15: a request to Cloudflare that fails in [httpx], a timeout or a
    refused connection for instance, is not turned into an exit code: when
    the zone lookup of a failover run raises an [httpx] exception, [main]
    raises it, having sent that one request. *)
Theorem zone_lookup_failure_escapes_main (data : value) (l : Failover.Locals)
  (h : list Request) (x : httpx_exc) :
  let req :=
    CloudflareClient.request (Failover.cf l) GET "/zones" [("name", Failover.domain l)] None in
  Failover.prepare w data = Ok l ->
  http w h req = Fails (Httpx x) ->
  Failover.main w data h = (Raise (Httpx x), (h ++ [req])%list).
Proof.
  cbn zeta. intros Hp Hr.
  assert (Hz : CloudflareClient.get_zone_id w (Failover.cf l) (Failover.domain l) h
               = (Raise (Httpx x),
                  (h ++ [CloudflareClient.request (Failover.cf l) GET "/zones"
                           [("name", Failover.domain l)] None])%list)).
  { unfold CloudflareClient.get_zone_id. now rewrite (bind_raise _ _ _ _ _ (send_fails _ _ _ _ Hr)). }
  unfold Failover.main. rewrite exit_code. unfold Failover.run_failover.
  rewrite Hp, bind_lift, (bind_raise _ _ _ _ _ Hz). reflexivity.
Qed.

(** X16: when Cloudflare has no router record, a failover run that has a
    desired target creates the record: after the two lookups that found
    nothing it sends a [POST] with the target as content and ttl 60. *)
Theorem apply_target_creates_missing (l : Failover.Locals) (zone_id : value) (target : string)
  (h h1 h2 : list Request) :
  CloudflareClient.get_dns_record w (Failover.cf l) zone_id (Failover.router_fqdn l) "CNAME" h
  = (Ok VNone, h1) ->
  CloudflareClient.get_dns_record w (Failover.cf l) zone_id (Failover.router_fqdn l) "CNAME" h1
  = (Ok VNone, h2) ->
  exists rest,
    snd (Failover.apply_target w l zone_id target h) =
    (h2 ++
     CloudflareClient.request (Failover.cf l) POST
       ("/zones/" ++ Py.str zone_id ++ "/dns_records") []
       (Some (VDict [("type", VStr "CNAME"); ("name", VStr (Failover.router_fqdn l));
                     ("content", VStr target); ("ttl", VInt 60)]))
     :: rest)%list.
Proof.
  intros H1 H2. unfold Failover.apply_target, Failover.current_target_info.
  rewrite (bind_ok _ _ _ _ _ (bind_ok _ _ _ _ _ H1)). cbn [Py.truthy negb ret Py.eq_str].
  unfold Failover.set_router_target.
  pose proof (upsert_dns_record_eq w (Failover.cf l) zone_id (Failover.router_fqdn l) "CNAME"
                target 60 None h1 h2 VNone _ H2 eq_refl) as Hup.
  unfold bind at 1. rewrite Hup.
  destruct (http w h2 _) as [resp|e].
  - destruct (not_200_201 (status_code resp)).
    + exists []. reflexivity.
    + rewrite bind_lift. destruct (DnsRecordConfig.subname _) as [s|e].
      * rewrite upsert_rrset_eq. cbn zeta. cbn [snd]. rewrite <- List.app_assoc.
        eexists. reflexivity.
      * exists []. reflexivity.
  - exists []. reflexivity.
Qed.

(** X17: the zone lookup, the record lookup, a health check, the choice of
    the desired target and the reading of the current target send [GET]
    requests only. *)
Theorem lookups_never_write (cf : CloudflareClient.t) (v : value) (name rtype : string)
  (expected timeout_s : Z) (l : Failover.Locals) :
  reads_only (CloudflareClient.get_zone_id w cf v) /\
  reads_only (CloudflareClient.get_dns_record w cf v name rtype) /\
  reads_only (Failover.check_health w v expected timeout_s) /\
  reads_only (Failover.desired_target w l) /\
  reads_only (Failover.current_target_info w cf v name).
Proof.
  repeat split.
  - apply reads_only_get_zone_id.
  - apply reads_only_get_dns_record.
  - apply reads_only_check_health.
  - apply reads_only_desired_target.
  - apply reads_only_current_target_info.
Qed.

End MoreSyncZone.

Lemma sync_stops_at_first_failure_witness :
  fst (SyncDns.sync_records (B := Sample.builtins) Sample.normal Sample.cf Sample.desec (VStr "z1")
         ([] ++ Sample.outside :: Sample.zone_records)%list [])
  = Raise ConfigError.
Proof.
  rewrite (sync_stops_at_first_failure (B := Sample.builtins) Sample.normal Sample.cf Sample.desec (VStr "z1") []
             Sample.zone_records Sample.outside [] []
             (snd (SyncDns.sync_record (B := Sample.builtins) Sample.normal Sample.cf Sample.desec (VStr "z1")
                     Sample.outside []))
             ConfigError); reflexivity.
Defined.

Lemma sync_record_writes_before_rejecting_witness :
  SyncDns.sync_record (B := Sample.builtins) Sample.normal Sample.cf Sample.desec (VStr "z1") Sample.outside []
  = (Raise ConfigError,
     [CloudflareClient.lookup_request (B := Sample.builtins) Sample.cf (VStr "z1") "other.org" "A";
      CloudflareClient.request Sample.cf PUT "/zones/z1/dns_records/r1" []
        (Some (VDict [("type", VStr "A"); ("name", VStr "other.org");
                      ("content", VStr "192.0.2.1"); ("ttl", VInt 300)]))]).
Proof.
  apply (sync_record_writes_before_rejecting (B := Sample.builtins) Sample.normal Sample.cf Sample.desec (VStr "z1")
           Sample.outside "other.org" "192.0.2.1" []); reflexivity.
Defined.

Lemma sync_zone_ok_count_witness :
  exists domain records new,
    load_zone_config (B := Sample.builtins) Sample.zone = Ok (domain, records) /\
    snd (SyncDns.sync_zone (B := Sample.builtins) Sample.normal Sample.zone []) = ([] ++ new)%list /\
    List.length new = 1 + 3 * List.length records /\
    List.length (filter is_write new) = 2 * List.length records.
Proof.
  apply (sync_zone_ok_count (B := Sample.builtins) Sample.normal Sample.zone []). reflexivity.
Defined.

Lemma sync_zone_needs_setup_witness :
  exists domain records cf_token desec_token,
    load_zone_config (B := Sample.builtins) Sample.zone = Ok (domain, records) /\
    environ Sample.normal "CF_API_TOKEN" = Some cf_token /\ cf_token <> "" /\
    environ Sample.normal "DESEC_API_TOKEN" = Some desec_token /\ desec_token <> "".
Proof.
  apply (sync_zone_needs_setup (B := Sample.builtins) Sample.normal Sample.zone []
           (snd (SyncDns.sync_zone (B := Sample.builtins) Sample.normal Sample.zone []))).
  - reflexivity.
  - vm_compute. discriminate.
Defined.

Lemma zone_lookup_failure_escapes_main_witness :
  Failover.main (B := Sample.builtins) Sample.unreachable Sample.config []
  = (Raise (Httpx ConnectTimeout), [Sample.zones_request]).
Proof.
  apply (zone_lookup_failure_escapes_main (B := Sample.builtins) Sample.unreachable Sample.config
           Sample.locals [] ConnectTimeout); reflexivity.
Defined.

Lemma apply_target_creates_missing_witness :
  exists rest,
    snd (Failover.apply_target (B := Sample.builtins) Sample.fresh Sample.locals (VStr "z1")
           "primary.example.com" [])
    = ([Sample.records_request (B := Sample.builtins) (VStr "z1");
        Sample.records_request (B := Sample.builtins) (VStr "z1")] ++
       CloudflareClient.request Sample.cf POST "/zones/z1/dns_records" []
         (Some (VDict [("type", VStr "CNAME"); ("name", VStr "www.example.com");
                       ("content", VStr "primary.example.com"); ("ttl", VInt 60)]))
       :: rest)%list.
Proof.
  apply (apply_target_creates_missing (B := Sample.builtins) Sample.fresh Sample.locals (VStr "z1")
           "primary.example.com" [] [Sample.records_request (B := Sample.builtins) (VStr "z1")]);
    reflexivity.
Defined.

(** ** Order of a synchronisation, and the shape of a zone file *)

Section MoreOrder.
Context {B : Builtins} (w : World).

Lemma sync_record_ok_requests (cf : CloudflareClient.t) (desec : DeSecClient.t)
  (zone_id : value) (rec : DnsRecordConfig.t) (h h' : list Request) :
  SyncDns.sync_record w cf desec zone_id rec h = (Ok tt, h') ->
  exists f s q,
    DnsRecordConfig.fqdn rec = Ok f /\
    DnsRecordConfig.subname rec = Ok s /\
    is_write q = true /\
    h' = (h ++ [CloudflareClient.lookup_request cf zone_id f (DnsRecordConfig.type rec); q;
                DeSecClient.request desec PUT
                  ("/domains/" ++ Py.str (DnsRecordConfig.domain rec) ++ "/rrsets/" ++ s ++
                   "/" ++ DnsRecordConfig.type rec ++ "/")
                  (Some (DeSecClient.rrset_payload s (DnsRecordConfig.type rec)
                           (DnsRecordConfig.ttl rec) (DnsRecordConfig.values rec)))])%list.
Proof.
  unfold SyncDns.sync_record. rewrite bind_lift.
  destruct (DnsRecordConfig.fqdn rec) as [f|]; [|discriminate].
  rewrite bind_lift. destruct (SyncDns.first_value _) as [v|]; [|discriminate].
  unfold bind at 1.
  destruct (CloudflareClient.upsert_dns_record w cf zone_id f _ v _ None h)
    as [[[]|] h1] eqn:Hup; [|discriminate].
  apply (upsert_dns_record_ok_adds w) in Hup. destruct Hup as (q & -> & Hq).
  rewrite bind_lift. destruct (DnsRecordConfig.subname rec) as [s|]; [|discriminate].
  rewrite upsert_rrset_eq. cbn zeta.
  destruct (http w _ _) as [resp|]; [|discriminate].
  destruct (not_200_201 _); [discriminate|].
  intros H. injection H as <-. exists f, s, q. rewrite <- List.app_assoc.
  repeat split; try reflexivity; exact Hq.
Qed.

(** X18: a loop that returns has gone through the records in the order of
    the file: what it sent is, record after record, the lookup of the
    record's fully qualified name, one write to Cloudflare, and the [PUT]
    of the record's values to deSEC under its subname. *)
Theorem sync_records_in_order (cf : CloudflareClient.t) (desec : DeSecClient.t)
  (zone_id : value) (records : list DnsRecordConfig.t) (h h' : list Request) :
  SyncDns.sync_records w cf desec zone_id records h = (Ok tt, h') ->
  exists sent,
    h' = (h ++ List.concat sent)%list /\
    Forall2
      (fun rec requests =>
         exists f s q,
           DnsRecordConfig.fqdn rec = Ok f /\
           DnsRecordConfig.subname rec = Ok s /\
           is_write q = true /\
           requests =
           [CloudflareClient.lookup_request cf zone_id f (DnsRecordConfig.type rec); q;
            DeSecClient.request desec PUT
              ("/domains/" ++ Py.str (DnsRecordConfig.domain rec) ++ "/rrsets/" ++ s ++
               "/" ++ DnsRecordConfig.type rec ++ "/")
              (Some (DeSecClient.rrset_payload s (DnsRecordConfig.type rec)
                       (DnsRecordConfig.ttl rec) (DnsRecordConfig.values rec)))])
      records sent.
Proof.
  revert h. induction records as [|rec records IH]; intros h.
  - cbn. intros H. injection H as <-. exists []. cbn. rewrite List.app_nil_r.
    split; [reflexivity | constructor].
  - rewrite sync_records_cons.
    destruct (SyncDns.sync_record w cf desec zone_id rec h) as [[[]|] h1] eqn:Hrec;
      [|discriminate].
    apply sync_record_ok_requests in Hrec.
    destruct Hrec as (f & s & q & Hf & Hs & Hq & ->).
    intros Hrest. destruct (IH _ Hrest) as (sent & -> & Hall).
    eexists (_ :: sent). cbn [List.concat]. rewrite List.app_assoc.
    split; [reflexivity|]. constructor; [|exact Hall].
    now exists f, s, q.
Qed.

(** X19: the shape of a zone file, once it is parsed.  Data that is not a
    mapping, a missing or falsy [domain] and a [records] that is truthy
    without being a list are configuration errors.  A file without
    [records], or with a falsy one, loads with no record.  A loaded file
    has one record per entry. *)
Theorem load_zone_config_shape (data : value) :
  ((forall d, data <> VDict d) -> load_zone_config data = Raise ConfigError) /\
  (forall d,
     data = VDict d -> Py.truthy (Py.dict_get d "domain" VNone) = false ->
     load_zone_config data = Raise ConfigError) /\
  (forall d,
     data = VDict d -> Py.truthy (Py.dict_get d "domain" VNone) = true ->
     (Py.truthy (Py.dict_get d "records" VNone) = false ->
      load_zone_config data = Ok (Py.dict_get d "domain" VNone, [])) /\
     (Py.truthy (Py.dict_get d "records" VNone) = true ->
      (forall items, Py.dict_get d "records" VNone <> VList items) ->
      load_zone_config data = Raise ConfigError) /\
     (forall items domain records,
        Py.dict_get d "records" VNone = VList items ->
        load_zone_config data = Ok (domain, records) ->
        List.length records = List.length items)).
Proof.
  split; [|split].
  - intros Hnot. unfold load_zone_config. destruct data as [| | | | | |d]; try reflexivity.
    now destruct (Hnot d).
  - intros d -> Hdom. unfold load_zone_config. now rewrite Hdom.
  - intros d -> Hdom. unfold load_zone_config. rewrite Hdom. cbn [negb].
    split; [|split].
    + intros Hrec. unfold Py.or_else. now rewrite Hrec.
    + intros Hrec Hnot. unfold Py.or_else. rewrite Hrec.
      destruct (Py.dict_get d "records" VNone) as [| | | | |items|]; try reflexivity.
      now destruct (Hnot items).
    + intros items domain records Hitems. unfold Py.or_else. rewrite Hitems.
      destruct items as [|item items]; cbn [Py.truthy].
      * cbn. intros H. now injection H as _ <-.
      * destruct (load_records _ (item :: items)) as [rs|] eqn:E; cbn [rbind]; [|discriminate].
        intros H. injection H as _ <-. apply load_records_ok in E.
        symmetry. now apply Forall2_length in E.
Qed.

End MoreOrder.

Lemma sync_records_in_order_witness :
  exists sent,
    snd (SyncDns.sync_records (B := Sample.builtins) Sample.normal Sample.cf Sample.desec
           (VStr "z1") Sample.zone_records [])
    = ([] ++ List.concat sent)%list /\
    List.length sent = 2.
Proof.
  destruct (sync_records_in_order (B := Sample.builtins) Sample.normal Sample.cf Sample.desec
              (VStr "z1") Sample.zone_records []
              (snd (SyncDns.sync_records (B := Sample.builtins) Sample.normal Sample.cf
                      Sample.desec (VStr "z1") Sample.zone_records [])) eq_refl)
    as (sent & Hsent & Hall).
  exists sent. split; [exact Hsent|].
  apply Forall2_length in Hall. now rewrite <- Hall.
Defined.

Lemma load_zone_config_shape_witness :
  load_zone_config (B := Sample.builtins) (VDict [("domain", VStr "example.com")])
  = Ok (VStr "example.com", []).
Proof.
  destruct (load_zone_config_shape (B := Sample.builtins)
              (VDict [("domain", VStr "example.com")])) as (_ & _ & Hdict).
  destruct (Hdict [("domain", VStr "example.com")] eq_refl eq_refl) as (Hempty & _).
  apply Hempty. reflexivity.
Defined.

(** X14: parsed zone data that does not load stops the synchronisation
    command before any request.  When the load raises a configuration error
    [main] returns exit code 1; when it raises an exception that is neither
    a configuration nor a provider error, the [TypeError] of a null ttl for
    instance, [main] does not catch it and raises it. *)
Theorem sync_main_rejects_file {B : Builtins} (w : World) (data : value) (h : list Request)
  (e : exn) :
  load_zone_config data = Raise e ->
  SyncDns.sync_zone w data h = (Raise e, h) /\
  (e = ConfigError -> SyncDns.main w data h = (Ok 1%Z, h)) /\
  (e <> ConfigError -> e <> ProviderError -> SyncDns.main w data h = (Raise e, h)).
Proof.
  intros Hload.
  assert (Hrun : SyncDns.sync_zone w data h = (Raise e, h)).
  { unfold SyncDns.sync_zone. now rewrite Hload, bind_lift. }
  split; [exact Hrun|]. unfold SyncDns.main. rewrite exit_code, Hrun. cbn [fst snd].
  split.
  - now intros ->.
  - intros Hc Hp. destruct e; try reflexivity; congruence.
Qed.

Lemma sync_main_rejects_file_witness :
  SyncDns.main (B := Sample.builtins) Sample.normal
    (VDict [("domain", VStr "example.com");
            ("records",
             VList [VDict [("name", VStr "www"); ("type", VStr "A");
                           ("ttl", VNone); ("values", VList [VStr "192.0.2.1"])]])]) []
  = (Raise TypeError, []).
Proof.
  destruct (sync_main_rejects_file (B := Sample.builtins) Sample.normal
              (VDict [("domain", VStr "example.com");
                      ("records",
                       VList [VDict [("name", VStr "www"); ("type", VStr "A");
                                     ("ttl", VNone); ("values", VList [VStr "192.0.2.1"])]])])
              [] TypeError eq_refl) as (_ & _ & Hother).
  apply Hother; discriminate.
Defined.
